(** * IPL exploratory analysis script ([src/ipl_analysis.py])

    A shallow embedding of the script: the two tables it loads, the
    dataframe operations it calls, its loader, its in-place preprocessing of
    the match table, and the ten aggregation steps of its analysis phase.

    - The match table is read with whatever columns the file has, and the
      script tests for columns by name; it is a finite map from column names
      to columns of cells.
    - The delivery table is only ever read through seven fixed columns; it is
      a list of typed rows.
    - An integer column is an int64 column: its sums wrap around at 64 bits.
    - A float64 is NaN, an infinity or the rational a finite float denotes,
      and every operation rounds its exact result to the nearest float64,
      ties to even. The sign of zero is not kept: no operation of the script
      on an integer column gives a negative zero.
    - The library calls whose result depends on more than the tables
      ([pd.to_datetime], [sorted], the plotting calls of steps 5 to 10) are
      parameters of the script: each returns or raises. *)

From Stdlib Require Import ZArith QArith Qreduction String Ascii.
From stdpp Require Import gmap strings list pretty sorting.

Open Scope string_scope.
Open Scope Z_scope.

#[local] Set Warnings "-clear-no-such-hyp".


(** ** Cells, columns and frames *)

Record date := Date { year : Z; month : Z; day : Z }.

(** One cell of the match table: a missing value (NaN, NaT), an integer, a
    text or a parsed date. *)
Inductive value :=
| VNull
| VInt (z : Z)
| VStr (s : string)
| VDate (d : date).

#[global] Instance date_eq_dec : EqDecision date.
Proof. solve_decision. Defined.

#[global] Instance value_eq_dec : EqDecision value.
Proof. solve_decision. Defined.

Abbreviation column := (list value).
Abbreviation DataFrame := (gmap string column).

(** A float64: NaN, an infinity, or a finite value given by the rational it
    denotes, in lowest terms. *)
Inductive float64 :=
| NaN
| Inf (negative : bool)
| Fin (q : Q).

Module Float64.

(** The integer nearest to [n / d], the even one on a tie. *)
Definition round_half_even (n : Z) (d : positive) : Z :=
  let q := n / Z.pos d in
  match 2 * (n mod Z.pos d) ?= Z.pos d with
  | Lt => q
  | Gt => q + 1
  | Eq => if Z.even q then q else q + 1
  end.

(** The [k] with [2^k <= n / d < 2^(k+1)]. *)
Definition floor_log2 (n d : positive) : Z :=
  let k := Z.log2 (Z.pos n) - Z.log2 (Z.pos d) in
  if (if 0 <=? k then Z.pos n <? 2 ^ k * Z.pos d else Z.pos n * 2 ^ (- k) <? Z.pos d)
  then k - 1 else k.

(** Rounding of the positive rational [n / d] to 53 significant bits, ties to
    even, with the subnormal range (no exponent below -1074); [None] once the
    rounded value passes the largest finite float64. *)
Definition round_pos (n d : positive) : option Q :=
  let e := Z.max (floor_log2 n d - 52) (-1074) in
  let v :=
    if 0 <? e
    then inject_Z (round_half_even (Z.pos n) (d * Z.to_pos (2 ^ e)) * 2 ^ e)
    else Qred (round_half_even (Z.pos n * 2 ^ (- e)) d # Z.to_pos (2 ^ (- e))) in
  if Qle_bool (inject_Z (2 ^ 1024)) v then None else Some v.

(** Round to nearest, ties to even. *)
Definition round (q : Q) : float64 :=
  let q := Qred q in
  match Qnum q with
  | 0 => Fin 0
  | Z.pos n => match round_pos n (Qden q) with Some v => Fin v | None => Inf false end
  | Z.neg n => match round_pos n (Qden q) with Some v => Fin (- v) | None => Inf true end
  end.

Definition opp (x : float64) : float64 :=
  match x with
  | NaN => NaN
  | Inf s => Inf (negb s)
  | Fin q => Fin (Qred (- q))
  end.

Definition add (x y : float64) : float64 :=
  match x, y with
  | NaN, _ | _, NaN => NaN
  | Inf s, Inf s' => if Bool.eqb s s' then Inf s else NaN
  | Inf s, Fin _ | Fin _, Inf s => Inf s
  | Fin a, Fin b => round (a + b)
  end.

Definition sub (x y : float64) : float64 := add x (opp y).

Definition negative (q : Q) : bool := Qnum q <? 0.

Definition mul (x y : float64) : float64 :=
  match x, y with
  | NaN, _ | _, NaN => NaN
  | Inf s, Inf s' => Inf (xorb s s')
  | Inf s, Fin q | Fin q, Inf s =>
      if Qnum q =? 0 then NaN else Inf (xorb s (negative q))
  | Fin a, Fin b => round (a * b)
  end.

(** Division; a zero divisor is +0. *)
Definition div (x y : float64) : float64 :=
  match x, y with
  | NaN, _ | _, NaN => NaN
  | Inf _, Inf _ => NaN
  | Inf s, Fin q => Inf (xorb s (negative q))
  | Fin _, Inf _ => Fin 0
  | Fin a, Fin b =>
      if Qnum b =? 0
      then (if Qnum a =? 0 then NaN else Inf (negative a))
      else round (a / b)
  end.

(** The cast of an integer. *)
Definition of_Z (z : Z) : float64 := round (inject_Z z).

End Float64.

(** [series * k]: the integer is cast to float64. *)
Definition fmul (x : float64) (k : Z) : float64 :=
  Float64.mul x (Float64.of_Z k).


(** One row of the delivery table (the columns the script reads). *)
Record delivery := Delivery {
  match_id : Z;
  over : Z;
  batsman : string;
  bowler : string;
  batsman_runs : Z;
  total_runs : Z;
  dismissal_kind : option string
}.

(** ** Exceptions and results *)

Inductive exn :=
| FileNotFoundError (msg : string)
| KeyError (key : string)
| OtherError (class msg : string).

(** [str(e)] as the handlers print it. *)
Definition str_exn (e : exn) : string :=
  match e with
  | FileNotFoundError msg => msg
  | KeyError key => "'" +:+ key +:+ "'"
  | OtherError _ msg => msg
  end.

(** The result of a library call: a value or an exception. Every [exn] is a
    subclass of [Exception]. *)
Inductive result (A : Type) :=
| Ok (a : A)
| Raised (e : exn).
Arguments Ok {A} a.
Arguments Raised {A} e.

#[global] Instance result_ret : MRet result := λ A a, Ok a.
#[global] Instance result_bind : MBind result := λ A B f r,
  match r with
  | Ok a => f a
  | Raised e => Raised e
  end.

(** How a statement of the script ends: normally, with an exception nobody
    caught, or with [SystemExit] (which is not an [Exception]). *)
Inductive ending (A : Type) :=
| Finished (a : A)
| Uncaught (e : exn)
| SystemExit (code : option Z).
Arguments Finished {A} a.
Arguments Uncaught {A} e.
Arguments SystemExit {A} code.

(** The status the process ends with: 0 after a normal end and after
    [SystemExit(None)], the code of [SystemExit(code)], 1 after an uncaught
    exception. *)
Definition exit_status {A} (r : ending A) : Z :=
  match r with
  | Finished _ => 0
  | Uncaught _ => 1
  | SystemExit None => 0
  | SystemExit (Some c) => c
  end.

(** ** Series operations *)

Module Pandas.

Section Generic.
Context {K : Type} `{EqDecision K}.

(** [Series.unique()]: the distinct values, in order of first appearance. *)
Fixpoint unique (l : list K) : list K :=
  match l with
  | [] => []
  | x :: l' => x :: filter (λ y, y ≠ x) (unique l')
  end.

(** Lookup by label in a series, given as its (label, value) pairs. *)
Fixpoint loc {V : Type} (s : list (K * V)) (k : K) : option V :=
  match s with
  | [] => None
  | (k', v) :: s' => if decide (k' = k) then Some v else loc s' k
  end.

(** Stable insertion sort; [before q x] says that [q] goes strictly before
    [x]. Ties keep the order of the input. *)
Section Sort.
Context {A : Type} (before : A → A → bool).

Fixpoint insert_sorted (x : A) (l : list A) : list A :=
  match l with
  | [] => [x]
  | q :: l' => if before q x then q :: insert_sorted x l' else x :: q :: l'
  end.

Definition sort_by (l : list A) : list A := foldr insert_sorted [] l.
End Sort.

(** [groupby(key)]: one group per distinct non-null key, keys ascending,
    each group holding its rows in table order. *)
Definition groupby {R : Type} (before : K → K → bool) (key : R → option K)
    (rows : list R) : list (K * list R) :=
  (λ k, (k, filter (λ r, key r = Some k) rows))
    <$> sort_by before (unique (omap key rows)).

(** Aggregation of every group. *)
Definition agg {R V : Type} (f : list R → V) (g : list (K * list R)) : list (K * V) :=
  prod_map id f <$> g.

(** [sort_values(ascending=False)] on a series of counts or totals. Equal
    values stay in the order of the series; the library fixes no order
    among them, and no statement below rests on one. *)
Definition sort_values_desc {V : Type} (ltb : V → V → bool) (s : list (K * V)) : list (K * V) :=
  sort_by (λ q x, ltb x.2 q.2) s.
End Generic.

Definition isnull (v : value) : bool :=
  match v with VNull => true | _ => false end.

Definition notnull (v : value) : bool := negb (isnull v).

(** [Series.dropna()]. *)
Definition dropna (c : column) : column := filter (λ v, notnull v) c.

(** Occurrence count of every distinct value, most frequent first. *)
Definition counts_desc {K : Type} `{EqDecision K} (present : list K) : list (K * nat) :=
  sort_values_desc Nat.ltb
    ((λ k, (k, length (filter (λ v, v = k) present))) <$> unique present).

(** [Series.value_counts()] (dropna=True): the counts of the non-null
    values. *)
Definition value_counts (c : column) : list (value * nat) :=
  counts_desc (filter (λ v, notnull v) c).

(** [dropna()] on a series of counts: a count is never missing. *)
Definition dropna_counts {K : Type} (s : list (K * nat)) : list (K * nat) := s.

(** [head(n)]. *)
Definition head {A : Type} (n : nat) (l : list A) : list A := take n l.

(** The sum of integers, as a number. *)
Definition total (l : list Z) : Z := foldr Z.add 0 l.

(** The int64 that a 64-bit two's complement addition leaves. *)
Definition wrap64 (z : Z) : Z := (z + 2 ^ 63) mod 2 ^ 64 - 2 ^ 63.

(** [sum()] of the int64 cells of a group: the additions wrap around. *)
Definition sum (l : list Z) : Z := wrap64 (total l).

(** One step of the compensated summation of the grouped mean: the state is
    the running sum and its compensation, which is reset when it is NaN. *)
Definition kahan_step (st : float64 * float64) (val : float64) : float64 * float64 :=
  let y := Float64.sub val st.2 in
  let t := Float64.add st.1 y in
  let c := Float64.sub (Float64.sub t st.1) y in
  (t, match c with NaN => Fin 0 | _ => c end).

(** [mean()] of the int64 cells of a group: the cells are cast to float64 and
    added in table order with compensation, and the sum is divided by their
    number; NaN when there is none. *)
Definition mean (l : list Z) : float64 :=
  match l with
  | [] => NaN
  | _ =>
      Float64.div (foldl kahan_step (Fin 0, Fin 0) (Float64.of_Z <$> l)).1
                  (Float64.of_Z (Z.of_nat (length l)))
  end.

(** [df[name]]. *)
Definition getitem (df : DataFrame) (name : string) : result column :=
  match df !! name with
  | Some c => Ok c
  | None => Raised (KeyError name)
  end.

(** [df.rename(columns={old: new}, inplace=True)]. *)
Definition rename (old new : string) (df : DataFrame) : DataFrame :=
  match df !! old with
  | Some c => <[new := c]> (delete old df)
  | None => df
  end.

(** A datetime64 column, [None] for NaT, and [Series.dt.year] on it (NaN for
    NaT). *)
Definition dt_year (dates : list (option date)) : column :=
  (λ d, from_option (λ d, VInt (year d)) VNull d) <$> dates.

Definition datetime_column (dates : list (option date)) : column :=
  from_option VDate VNull <$> dates.

(** Element-wise [==] of two columns; a missing value equals nothing. *)
Definition eq_columns (a b : column) : list bool :=
  zip_with (λ x y, notnull x && notnull y && bool_decide (x = y)) a b.

(** The order in which group keys are listed: integers by value, then texts
    by code points, then dates. *)
Definition value_before (a b : value) : bool :=
  match a, b with
  | VInt x, VInt y => x <? y
  | VInt _, _ => true
  | VStr x, VStr y => String.ltb x y
  | VStr _, VDate _ => true
  | VDate x, VDate y =>
      (year x <? year y) || ((year x =? year y) && ((month x <? month y)
        || ((month x =? month y) && (day x <? day y))))
  | _, _ => false
  end.

End Pandas.

Import Pandas.

(** ** Output and control of the script *)

Inductive chart :=
| MatchesPerSeason (order season : column)
| TopVenues (s : list (value * nat))
| TopWinners (s : list (value * nat))
| TossImpact (toss_decision : column) (hue : list bool)
| TopRunScorers (s : list (string * Z))
| PlayerOfMatch (s : list (value * nat))
| TopWicketTakers (s : list (string * nat))
| RunsPerOver (s : list (Z * float64))
| BallsPerOver (s : list (Z * nat))
| ScorePerSeason (s : list (value * float64)).

(** What the run writes: a printed line, the dump of a table or of a series
    (its text is the library's), a chart shown. *)
Inductive event :=
| Print (line : string)
| Dump (what : string)
| PrintCounts (caption : string) (s : list (value * nat))
| Show (c : chart).

(** A statement of the script: what it wrote and how it ended. *)
Record M (A : Type) := Run { output : list event; outcome : ending A }.
Arguments Run {A} output outcome.
Arguments output {A} m.
Arguments outcome {A} m.

#[global] Instance M_ret : MRet M := λ A a, Run [] (Finished a).
#[global] Instance M_bind : MBind M := λ A B f m,
  match outcome m with
  | Finished a => Run (output m ++ output (f a)) (outcome (f a))
  | Uncaught e => Run (output m) (Uncaught e)
  | SystemExit c => Run (output m) (SystemExit c)
  end.

Definition print (line : string) : M unit := Run [Print line] (Finished tt).
Definition emit (e : event) : M unit := Run [e] (Finished tt).

(** [plt.show()] on the figure a step has built. *)
Definition show (c : chart) : M unit := Run [Show c] (Finished tt).

(** A library call inside a statement. *)
Definition call {A} (r : result A) : M A :=
  match r with
  | Ok a => Run [] (Finished a)
  | Raised e => Run [] (Uncaught e)
  end.

(** [exit()]: raises [SystemExit] with no code. *)
Definition exit {A} : M A := Run [] (SystemExit None).

(** [try: body except ...: handler]; [SystemExit] passes through. *)
Definition try_except {A} (body : M A) (handler : exn → M A) : M A :=
  match outcome body with
  | Uncaught e => Run (output body ++ output (handler e)) (outcome (handler e))
  | _ => body
  end.

Definition nl : string := String "010"%char "".

Definition rule36 : string := "------------------------------------".
Definition rule48 : string := "------------------------------------------------".
Definition rule38 : string := "======================================".

(** ** The environment of a run *)

(** What [pd.read_csv] finds at a path. *)
Inductive file (A : Type) :=
| Absent
| Unreadable (class msg : string)
| Table (t : A).
Arguments Absent {A}.
Arguments Unreadable {A} class msg.
Arguments Table {A} t.

Record world := World {
  (** [os.path.dirname(os.path.abspath(__file__))], when [__file__] is defined *)
  dirname_of_file : option string;
  getcwd : string;
  deliveries_files : string → file (list delivery);
  matches_files : string → file DataFrame
}.

Definition read_csv {A} (files : string → file A) (path : string) : result A :=
  match files path with
  | Absent =>
      Raised (FileNotFoundError ("[Errno 2] No such file or directory: '" +:+ path +:+ "'"))
  | Unreadable class msg => Raised (OtherError class msg)
  | Table t => Ok t
  end.

Fixpoint ends_with_sep (s : string) : bool :=
  match s with
  | "" => false
  | String c "" => bool_decide (c = "/"%char)
  | String _ s' => ends_with_sep s'
  end.

(** [os.path.join(a, b)] for a relative [b] (POSIX). *)
Definition path_join (a b : string) : string :=
  if bool_decide (a = "") || ends_with_sep a then a +:+ b else a +:+ "/" +:+ b.

Section Script.

(** Two library functions the script calls and this development does not
    define: [pd.to_datetime] on a column (a datetime64 column, or an
    exception) and Python's [sorted] on a list of cells (which raises on cells
    it cannot compare). *)
Context (to_datetime : column → result (list (option date))).
Context (sorted : column → result column).

(** The plotting calls of steps 5 to 10, which can raise as well: [plot] is
    the [Series.plot] call of a step with the calls that dress its figure,
    [xticks] is the [plt.xticks] call of step 10 on the sorted seasons. *)
Context (plot : chart → result unit).
Context (xticks : column → result unit).

(** ** Phase 1: loading *)

Definition script_dir (w : world) : M string :=
  match dirname_of_file w with
  | Some d => mret d
  | None =>
      let d := getcwd w in
      print (nl +:+ "Warning: __file__ not defined. Using current working directory as script directory.");;
      print ("Make sure your CSV files are in: " +:+ d);;
      mret d
  end.

Definition deliveries_path (dir : string) : string := path_join dir "deliveries.csv".
Definition matches_path (dir : string) : string := path_join dir "matches.csv".

Definition load (w : world) : M (list delivery * DataFrame) :=
  print rule36;;
  print "Phase 1: Loading Data and Initial Setup...";;
  print rule36;;
  dir ← script_dir w;
  print (nl +:+ "Script Directory detected as: " +:+ dir);;
  print ("Attempting to load deliveries from: " +:+ deliveries_path dir);;
  print ("Attempting to load matches from: " +:+ matches_path dir);;
  try_except
    (deliveries_df ← call (read_csv (deliveries_files w) (deliveries_path dir));
     matches_df ← call (read_csv (matches_files w) (matches_path dir));
     print (nl +:+ "Datasets loaded successfully.");;
     mret (deliveries_df, matches_df))
    (λ e,
       match e with
       | FileNotFoundError _ =>
           print (nl +:+ "--- ERROR ---");;
           print "Could not find 'deliveries.csv' or 'matches.csv' at the expected paths.";;
           print ("Please ensure both files exist in the directory: " +:+ dir);;
           print ("(Your current working directory is: " +:+ getcwd w +:+ ")");;
           exit
       | _ =>
           print (nl +:+ "--- ERROR ---");;
           print ("An unexpected error occurred during file loading: " +:+ str_exn e);;
           exit
       end).

(** ** Phase 2: inspection and preprocessing *)

(** A column of text (object) cells: it holds a text, or the table has no
    row. *)
Definition object_column (c : column) : bool :=
  match c with
  | [] => true
  | _ => existsb (λ v, match v with VStr _ => true | _ => false end) c
  end.

Definition has_object_column (df : DataFrame) : bool :=
  existsb (λ kc, object_column kc.2) (map_to_list df).

(** [describe()] refuses a table without columns, and
    [describe(include=['object'])] one without a text column; the other dumps
    of the inspection go through. *)
Definition report (matches_df : DataFrame) : M unit :=
  print (nl +:+ rule36);;
  print "Phase 2: Data Exploration and Preprocessing...";;
  print rule36;;
  print (nl +:+ "--- Deliveries Data Info ---");;
  emit (Dump "deliveries_df.info(memory_usage='deep')");;
  print (nl +:+ "--- Matches Data Info ---");;
  emit (Dump "matches_df.info(memory_usage='deep')");;
  print (nl +:+ "--- Deliveries Data Head (First 5 Rows) ---");;
  emit (Dump "deliveries_df.head()");;
  print (nl +:+ "--- Matches Data Head (First 5 Rows) ---");;
  emit (Dump "matches_df.head()");;
  print (nl +:+ "--- Deliveries Data Description (Numerical) ---");;
  emit (Dump "deliveries_df.describe()");;
  print (nl +:+ "--- Matches Data Description (Numerical) ---");;
  (if bool_decide (matches_df = ∅)
   then call (Raised (OtherError "ValueError" "Cannot describe a DataFrame without columns"))
   else emit (Dump "matches_df.describe()"));;
  print (nl +:+ "--- Matches Data Description (Categorical) ---");;
  (if has_object_column matches_df
   then emit (Dump "matches_df.describe(include=['object'])")
   else call (Raised (OtherError "ValueError" "No objects to concatenate")));;
  print (nl +:+ "--- Missing Values Count in Deliveries Data ---");;
  emit (Dump "deliveries_df.isnull().sum()");;
  print (nl +:+ "--- Missing Values Count in Matches Data ---");;
  emit (Dump "matches_df.isnull().sum()").

(** The handlers of the date conversion, by class of the exception. *)
Definition date_warning (e : exn) : M unit :=
  match e with
  | KeyError _ => print "Warning: 'date' column not found in matches_df during conversion."
  | _ => print ("Warning: Could not convert 'date' column or extract season: " +:+ str_exn e)
  end.

(** The [try] block around the date conversion. The table is changed in
    place, so each branch returns the table as the block left it. *)
Definition convert_date (matches_df : DataFrame) : M DataFrame :=
  match getitem matches_df "date" ≫= to_datetime with
  | Ok dates =>
      let matches_df := <["date" := datetime_column dates]> matches_df in
      print "Converted 'date' column to datetime objects.";;
      let matches_df := <["season" := dt_year dates]> matches_df in
      print "Extracted/Updated 'season' column from 'date'.";;
      mret matches_df
  | Raised e => date_warning e;; mret matches_df
  end.

Definition preprocess (matches_df : DataFrame) : M DataFrame :=
  print (nl +:+ "--- Performing Preprocessing Steps ---");;
  matches_df ←
    (if bool_decide (is_Some (matches_df !! "id")) && bool_decide (matches_df !! "match_id" = None)
     then let matches_df := rename "id" "match_id" matches_df in
          print "Renamed 'id' column to 'match_id' in matches_df.";;
          mret matches_df
     else mret matches_df);
  convert_date matches_df.

(** ** Phase 3: the ten analysis steps *)

(** 1. Number of matches per season. *)
Definition step1 (matches_df : DataFrame) : M unit :=
  print "Plotting: Number of Matches Per Season...";;
  season ← call (getitem matches_df "season");
  order ← call (sorted (unique season));
  show (MatchesPerSeason order season).

(** 2. Most frequent venues. *)
Definition top_venues (venue : column) : list (value * nat) :=
  head 10 (value_counts venue).

Definition step2 (matches_df : DataFrame) : M unit :=
  print "Plotting: Top 10 Most Frequent Venues...";;
  venue ← call (getitem matches_df "venue");
  show (TopVenues (top_venues venue)).

(** 3. Teams with most wins. *)
Definition top_winners (winner : column) : list (value * nat) :=
  head 10 (dropna_counts (value_counts winner)).

Definition step3 (matches_df : DataFrame) : M unit :=
  print "Plotting: Top 10 Teams with Most Wins...";;
  winner ← call (getitem matches_df "winner");
  show (TopWinners (top_winners winner)).

(** 4. Toss decision against the outcome. The plotting call looks the
    [toss_decision] column up by name. *)
Definition step4 (matches_df : DataFrame) : M unit :=
  print "Analyzing and Plotting: Toss Decision Impact...";;
  toss_winner ← call (getitem matches_df "toss_winner");
  winner ← call (getitem matches_df "winner");
  let toss_wins := eq_columns toss_winner winner in
  toss_decision ←
    call (match matches_df !! "toss_decision" with
          | Some c => Ok c
          | None => Raised (OtherError "ValueError"
                              "Could not interpret value `toss_decision` for `x`. An entry with this name does not appear in `data`.")
          end);
  show (TossImpact toss_decision toss_wins);;
  toss_decision ← call (getitem matches_df "toss_decision");
  let toss_decision_counts := value_counts toss_decision in
  emit (PrintCounts (nl +:+ "Overall Toss Decisions:") toss_decision_counts).

(** 5. Top run scorers. *)
Definition top_batsmen (deliveries_df : list delivery) : list (string * Z) :=
  head 15 (sort_values_desc Z.ltb
    (agg (λ g, sum (batsman_runs <$> g))
         (groupby String.ltb (λ r, Some (batsman r)) deliveries_df))).

(** A figure of steps 5 to 10: built, which can raise, then shown. *)
Definition display (c : chart) : M unit :=
  call (plot c);;
  show c.

Definition step5 (deliveries_df : list delivery) : M unit :=
  print "Plotting: Top 15 Run Scorers...";;
  display (TopRunScorers (top_batsmen deliveries_df)).

(** 6. Player of the match awards. *)
Definition pom_counts (player_of_match : column) : list (value * nat) :=
  if existsb isnull player_of_match
  then value_counts (dropna player_of_match)
  else value_counts player_of_match.

Definition step6 (matches_df : DataFrame) : M unit :=
  print "Plotting: Top 15 Player of the Match Winners...";;
  player_of_match ← call (getitem matches_df "player_of_match");
  (if existsb isnull player_of_match
   then print ("Note: Found " +:+ pretty (length (filter (λ v, isnull v) player_of_match))
               +:+ " missing value(s) in 'player_of_match'. Excluding them from PoM analysis.")
   else mret tt);;
  display (PlayerOfMatch (head 15 (pom_counts player_of_match))).

(** 7. Top wicket takers. *)
Definition dismissal_types_for_bowler : list string :=
  ["caught"; "bowled"; "lbw"; "stumped"; "caught and bowled"; "hit wicket"].

(** [Series.isin(values)]; a missing value is in no list. *)
Definition isin (values : list string) (v : option string) : bool :=
  match v with
  | Some s => bool_decide (s ∈ values)
  | None => false
  end.

Definition wickets_df (deliveries_df : list delivery) : list delivery :=
  filter (λ r, isin dismissal_types_for_bowler (dismissal_kind r)) deliveries_df.

(** [count()] of a group: its non-null cells. *)
Definition count_dismissal_kind (g : list delivery) : nat :=
  length (filter (λ r, is_Some (dismissal_kind r)) g).

Definition wickets_by_bowler (deliveries_df : list delivery) : list (string * nat) :=
  agg count_dismissal_kind
      (groupby String.ltb (λ r, Some (bowler r)) (wickets_df deliveries_df)).

Definition top_bowlers (deliveries_df : list delivery) : list (string * nat) :=
  head 15 (sort_values_desc Nat.ltb (wickets_by_bowler deliveries_df)).

Definition step7 (deliveries_df : list delivery) : M unit :=
  print "Plotting: Top 15 Wicket Takers...";;
  display (TopWicketTakers (top_bowlers deliveries_df)).

(** 8. Estimated runs per over: mean runs per ball of the over, times 6. *)
Definition avg_runs_per_over (deliveries_df : list delivery) : list (Z * float64) :=
  prod_map id (λ m, fmul m 6)
    <$> agg (λ g, mean (total_runs <$> g))
            (groupby Z.ltb (λ r, Some (over r)) deliveries_df).

Definition step8 (deliveries_df : list delivery) : M unit :=
  print "Plotting: Estimated Average Runs per Over...";;
  display (RunsPerOver (avg_runs_per_over deliveries_df)).

(** 9. Balls bowled per over number. *)
Definition balls_per_over (deliveries_df : list delivery) : list (Z * nat) :=
  sort_by (λ q x, q.1 <? x.1) (counts_desc (over <$> deliveries_df)).

Definition step9 (deliveries_df : list delivery) : M unit :=
  print "Plotting: Distribution of Balls Bowled per Over...";;
  display (BallsPerOver (balls_per_over deliveries_df)).

(** 10. Average total runs per match across seasons. *)
Definition total_runs_per_match (deliveries_df : list delivery) : list (Z * Z) :=
  agg (λ g, sum (total_runs <$> g))
      (groupby Z.ltb (λ r, Some (match_id r)) deliveries_df).

(** [df[[a, b]]]: the rows of the two columns; the [KeyError] of a list of
    labels names the missing ones. *)
Definition getitems (df : DataFrame) (a b : string) : result (list (value * value)) :=
  match df !! a, df !! b with
  | Some ca, Some cb => Ok (zip ca cb)
  | None, Some _ => Raised (KeyError ("['" +:+ a +:+ "'] not in index"))
  | Some _, None => Raised (KeyError ("['" +:+ b +:+ "'] not in index"))
  | None, None =>
      Raised (KeyError ("None of [Index(['" +:+ a +:+ "', '" +:+ b
                        +:+ "'], dtype='object')] are in the [columns]"))
  end.

(** A row of the merged table. *)
Record merged_row := Merged { m_match_id : Z; m_total_runs : Z; m_season : value }.

(** [pd.merge(left, right, on='match_id', how='left')], the left key being an
    integer column: every left row, in order, once for each right row with
    its key, and once with a missing season when there is none. The library
    refuses to match an integer key with a text or date key column. *)
Definition merge_left (left : list (Z * Z)) (right : list (value * value))
    : result (list merged_row) :=
  if forallb (λ r, match r.1 with VStr _ | VDate _ => false | _ => true end) right
  then Ok (left ≫= λ l,
             match filter (λ r, r.1 = VInt l.1) right with
             | [] => [Merged l.1 l.2 VNull]
             | rs => (λ r, Merged l.1 l.2 r.2) <$> rs
             end)
  else Raised (OtherError "ValueError"
                 "You are trying to merge on int64 and object columns for key 'match_id'. If you wish to proceed you should use pd.concat").

Definition match_runs_season (matches_df : DataFrame) (deliveries_df : list delivery)
    : result (list merged_row) :=
  right ← getitems matches_df "match_id" "season";
  merge_left (total_runs_per_match deliveries_df) right.

Definition season_key (r : merged_row) : option value :=
  if isnull (m_season r) then None else Some (m_season r).

Definition avg_score_per_season (merged : list merged_row) : list (value * float64) :=
  agg (λ g, mean (m_total_runs <$> g)) (groupby value_before season_key merged).

Definition step10 (matches_df : DataFrame) (deliveries_df : list delivery) : M unit :=
  print "Plotting: Average Total Runs per Match Across Seasons...";;
  if bool_decide (is_Some (matches_df !! "season")) then
    merged ← call (match_runs_season matches_df deliveries_df);
    (* the merged table always has the right table's season column *)
    if negb (forallb (λ r, isnull (m_season r)) merged) then
      let avg := avg_score_per_season merged in
      call (plot (ScorePerSeason avg));;
      ticks ← call (sorted (unique (avg.*1)));
      call (xticks ticks);;
      show (ScorePerSeason avg)
    else
      print "Could not perform average score per season analysis (missing 'season' column data after merge)."
  else
    print "Could not perform average score per season analysis ('season' column not found in matches_df).".

Definition analysis (matches_df : DataFrame) (deliveries_df : list delivery) : M unit :=
  print (nl +:+ rule48);;
  print "Phase 3: Performing Analysis and Generating Visualizations...";;
  print rule48;;
  print (nl +:+ "--- Analyzing Basic Match Statistics ---");;
  step1 matches_df;;
  step2 matches_df;;
  step3 matches_df;;
  step4 matches_df;;
  print (nl +:+ "--- Analyzing Player Performance ---");;
  step5 deliveries_df;;
  step6 matches_df;;
  step7 deliveries_df;;
  print (nl +:+ "--- Analyzing Innings Statistics ---");;
  step8 deliveries_df;;
  step9 deliveries_df;;
  print (nl +:+ "--- Analyzing Trends Over Seasons ---");;
  step10 matches_df deliveries_df.

(** ** Phase 4 and the whole run *)

Definition summary : M unit :=
  print (nl +:+ rule36);;
  print "Phase 4: Summary and Conclusion";;
  print rule36;;
  print "Analysis complete. Key insights derived from the plots and statistics generated:";;
  print "- Visualized trends in matches per season, popular venues, and top-performing teams.";;
  print "- Identified dominant players based on total runs, wickets taken, and Player of the Match awards.";;
  print "- Analyzed scoring patterns, showing run rates typically increase towards the end of innings.";;
  print "- Examined the relationship between toss decisions and match outcomes.";;
  print "- Observed potential trends in average match scores over different IPL seasons.";;
  print (nl +:+ "Further analysis could explore:");;
  print "  * Detailed player vs. player or team vs. team statistics.";;
  print "  * Venue-specific performance analysis (e.g., impact of toss at specific stadiums).";;
  print "  * Performance under pressure (e.g., run rates in chases vs. setting targets).";;
  print "  * Building predictive models for match outcomes or player performance (requires more advanced techniques).";;
  print (nl +:+ rule38);;
  print "=== End of IPL Data Analysis Script ===";;
  print rule38.

(** Everything after the tables are loaded. *)
Definition after_load (tables : list delivery * DataFrame) : M unit :=
  report tables.2;;
  matches_df ← preprocess tables.2;
  analysis matches_df tables.1;;
  summary.

Definition main (w : world) : M unit :=
  tables ← load w;
  after_load tables.

End Script.

(** ** The quantities of the specification *)

(** A wicket credited to the bowler: the dismissal kind is one of the six. *)
Definition bowler_wicket (r : delivery) : Prop :=
  match dismissal_kind r with
  | Some k =>
      k = "caught" ∨ k = "bowled" ∨ k = "lbw" ∨ k = "stumped"
      ∨ k = "caught and bowled" ∨ k = "hit wicket"
  | None => False
  end.

#[global] Instance bowler_wicket_dec r : Decision (bowler_wicket r).
Proof. unfold bowler_wicket. destruct (dismissal_kind r); apply _. Defined.

(** The number of delivery rows of a bowler that are such wickets. *)
Definition wickets_of (deliveries_df : list delivery) (name : string) : nat :=
  length (filter (λ r, bowler r = name ∧ bowler_wicket r) deliveries_df).

(** The total runs of the deliveries of an over. *)
Definition runs_of_over (deliveries_df : list delivery) (o : Z) : list Z :=
  total_runs <$> filter (λ r, over r = o) deliveries_df.

(** The sum of the total runs of the deliveries of a match, as a number. *)
Definition runs_of_match (deliveries_df : list delivery) (m : Z) : Z :=
  total (total_runs <$> filter (λ r, match_id r = m) deliveries_df).

(** The per-match sums of a season: one for each row of the match table's
    (match_id, season) pairs that is of the season and has deliveries, in
    the order of the match table. *)
Definition season_scores (deliveries_df : list delivery) (right : list (value * value))
    (s : value) : list Z :=
  omap (λ r, match r.1 with
             | VInt m =>
                 if decide (r.2 = s ∧ m ∈ match_id <$> deliveries_df)
                 then Some (runs_of_match deliveries_df m) else None
             | _ => None
             end) right.

(** The mean of the scores of a season, when it has any: their sum over
    their number, as the nearest float64. *)
Definition mean_if_any (scores : list Z) : option float64 :=
  match scores with
  | [] => None
  | _ => Some (Float64.round (total scores # Pos.of_nat (length scores)))
  end.

(** The number of cells of a column that hold a given value. *)
Definition occurrences (c : column) (v : value) : nat :=
  length (filter (λ x, x = v) c).

(** The match table after the renaming step of the preprocessing. *)
Definition renamed (matches_df : DataFrame) : DataFrame :=
  if bool_decide (is_Some (matches_df !! "id"))
     && bool_decide (matches_df !! "match_id" = None)
  then rename "id" "match_id" matches_df
  else matches_df.

(** The directory the input files are looked for in, and the lines the
    loader writes before it tries to read them. *)
Definition the_script_dir (w : world) : string :=
  default (getcwd w) (dirname_of_file w).

Definition loading_lines (w : world) : list event :=
  [Print rule36; Print "Phase 1: Loading Data and Initial Setup..."; Print rule36]
  ++ match dirname_of_file w with
     | Some _ => []
     | None =>
         [Print (nl +:+ "Warning: __file__ not defined. Using current working directory as script directory.");
          Print ("Make sure your CSV files are in: " +:+ getcwd w)]
     end
  ++ [Print (nl +:+ "Script Directory detected as: " +:+ the_script_dir w);
      Print ("Attempting to load deliveries from: " +:+ deliveries_path (the_script_dir w));
      Print ("Attempting to load matches from: " +:+ matches_path (the_script_dir w))].

(** The runs a batsman scored off the bat, over all deliveries, as a
    number. *)
Definition runs_of_batsman (deliveries_df : list delivery) (name : string) : Z :=
  total (batsman_runs <$> filter (λ r, batsman r = name) deliveries_df).

(** The deliveries bowled in an over number. *)
Definition balls_of_over (deliveries_df : list delivery) (o : Z) : nat :=
  length (filter (λ r, over r = o) deliveries_df).

(** ** Instances of the library functions, for concrete runs *)

Module Instances.

Definition digit (c : ascii) : option Z :=
  let n := Z.of_nat (nat_of_ascii c) in
  if (48 <=? n) && (n <=? 57) then Some (n - 48) else None.

Definition number (cs : list ascii) : option Z :=
  foldl (λ acc c, a ← acc; d ← digit c; Some (10 * a + d)) (Some 0) cs.

Definition leap_year (y : Z) : bool :=
  (y mod 4 =? 0) && (negb (y mod 100 =? 0) || (y mod 400 =? 0)).

Definition days_in_month (y m : Z) : Z :=
  if m =? 2 then (if leap_year y then 29 else 28)
  else if bool_decide (m ∈ [4; 6; 9; 11]) then 30
  else 31.

(** A date of the calendar, of the years a nanosecond timestamp holds in
    full, written YYYY-MM-DD. *)
Definition parse_iso (s : string) : option date :=
  match list_ascii_of_string s with
  | [y1; y2; y3; y4; s1; m1; m2; s2; d1; d2] =>
      y ← number [y1; y2; y3; y4];
      m ← number [m1; m2];
      d ← number [d1; d2];
      if bool_decide (s1 = "-"%char ∧ s2 = "-"%char ∧ 1678 ≤ y ≤ 2261 ∧ 1 ≤ m ≤ 12
                      ∧ 1 ≤ d ≤ days_in_month y m)
      then Some (Date y m d) else None
  | _ => None
  end.

(** The conversion on columns of missing cells, dates and YYYY-MM-DD
    texts; it refuses any other cell. *)
Definition iso_to_datetime (c : column) : result (list (option date)) :=
  mapM (λ v, match v with
             | VNull => Ok None
             | VDate d => Ok (Some d)
             | VStr s =>
                 match parse_iso s with
                 | Some d => Ok (Some d)
                 | None => Raised (OtherError "ValueError" ("Unknown datetime string format: " +:+ s))
                 end
             | VInt _ => Raised (OtherError "ValueError" "not a YYYY-MM-DD text")
             end) c.

(** [sorted] on columns of cells of one kind. *)
Definition sorted_values (c : column) : result column :=
  Ok (sort_by value_before c).

(** The plotting calls on the series of a run: a bar chart, a pie chart and
    the over ticks of the rate chart need a series that is not empty. *)
Definition draw (c : chart) : result unit :=
  match c with
  | TopRunScorers [] | TopWicketTakers [] | BallsPerOver [] =>
      Raised (OtherError "IndexError" "index 0 is out of bounds for axis 0 with size 0")
  | PlayerOfMatch [] => Raised (OtherError "ValueError" "All wedge sizes are zero")
  | RunsPerOver [] => Raised (OtherError "ValueError" "arange: cannot compute length")
  | _ => Ok tt
  end.

(** [plt.xticks] on the seasons of a line chart drawn at positions: numbers
    are ticks, texts are not. *)
Definition number_ticks (ticks : column) : result unit :=
  if forallb (λ v, match v with VStr _ => false | _ => true end) ticks
  then Ok tt
  else Raised (OtherError "ConversionError"
                 ("Failed to convert value(s) to axis units: ["
                  +:+ String.concat ", "
                        ((λ v, match v with
                               | VStr s => "'" +:+ s +:+ "'"
                               | VInt z => pretty z
                               | _ => "nan"
                               end) <$> ticks)
                  +:+ "]")).

(** The tables of the end-to-end scenario. *)
Definition scenario_matches : DataFrame :=
  {[ "match_id" := [VInt 1; VInt 2];
     "date" := [VStr "2020-04-10"; VStr "2020-04-12"];
     "winner" := [VStr "A"; VStr "B"] ]}.

Definition ball (m o runs : Z) : delivery :=
  Delivery m o "batter" "bowler" runs runs None.

Definition scenario_deliveries : list delivery :=
  [ball 1 1 4; ball 1 1 6; ball 2 1 6].

(** The match table of the scenario once preprocessed, and the merged table
    of step 10 on it. *)
Definition scenario_preprocessed : DataFrame :=
  <["season" := [VInt 2020; VInt 2020]]>
    (<["date" := [VDate (Date 2020 4 10); VDate (Date 2020 4 12)]]> scenario_matches).

Definition scenario_merged : list merged_row :=
  [Merged 1 10 (VInt 2020); Merged 2 6 (VInt 2020)].

(** A match table without a date column, and one keyed by [id]. *)
Definition undated_matches : DataFrame :=
  {[ "match_id" := [VInt 1; VInt 2];
     "season" := [VInt 2019; VInt 2019];
     "winner" := [VStr "A"; VNull] ]}.

Definition id_matches : DataFrame :=
  {[ "id" := [VInt 11; VInt 12];
     "season" := [VStr "2007/08"; VStr "2009"];
     "date" := [VStr "2008-04-18"; VStr "2009-04-18"] ]}.

(** A run with neither file in place, and one with a deliveries file that
    does not parse and no matches file. *)
Definition missing_world : world :=
  World (Some "/srv/ipl") "/home/user" (λ _, Absent) (λ _, Absent).

Definition garbled_world : world :=
  World (Some "/srv/ipl") "/home/user"
        (λ _, Unreadable "ParserError" "Error tokenizing data. C error: Expected 21 fields in line 3, saw 22")
        (λ _, Absent).

(** A match table with every column the analysis reads except the date and
    the season, and a run that loads it. *)
Definition unseasoned_matches : DataFrame :=
  {[ "match_id" := [VInt 1; VInt 2];
     "venue" := [VStr "Eden Gardens"; VStr "Wankhede Stadium"];
     "toss_winner" := [VStr "A"; VStr "B"];
     "toss_decision" := [VStr "bat"; VStr "field"];
     "winner" := [VStr "A"; VStr "B"];
     "player_of_match" := [VStr "P"; VStr "Q"] ]}.

Definition unseasoned_world : world :=
  World (Some "/srv/ipl") "/home/user"
        (λ _, Table scenario_deliveries) (λ _, Table unseasoned_matches).

End Instances.

(** * Facts about int64 and float64 arithmetic *)

Lemma total_app (a b : list Z) : total (a ++ b) = total a + total b.
Proof. induction a; simpl; lia. Qed.

Lemma total_Permutation (l k : list Z) : l ≡ₚ k → total l = total k.
Proof. induction 1; simpl; lia. Qed.

Lemma sum_Permutation (l k : list Z) : l ≡ₚ k → sum l = sum k.
Proof. intros Hp. unfold sum. by rewrite (total_Permutation _ _ Hp). Qed.

Lemma total_abs_nonneg (l : list Z) : 0 ≤ total (Z.abs <$> l).
Proof. induction l; csimpl; lia. Qed.

Lemma total_abs_elem (l : list Z) (x : Z) :
  x ∈ l → Z.abs x ≤ total (Z.abs <$> l).
Proof.
  induction l as [|y l IH]; [by intros ?%elem_of_nil|].
  pose proof (total_abs_nonneg l). csimpl.
  intros [->|Hin]%elem_of_cons; [lia|]. specialize (IH Hin). lia.
Qed.

(** An integer that fits in 64 bits is left as it is. *)
Lemma wrap64_small (z : Z) : - 2 ^ 63 ≤ z < 2 ^ 63 → wrap64 z = z.
Proof. intros Hz. unfold wrap64. rewrite Z.mod_small; lia. Qed.

Lemma wrap64_range (z : Z) : - 2 ^ 63 ≤ wrap64 z < 2 ^ 63.
Proof.
  unfold wrap64. pose proof (Z.mod_pos_bound (z + 2 ^ 63) (2 ^ 64) ltac:(lia)). lia.
Qed.

(** Wrapping the terms of a sum and then the sum, or the sum only, leaves
    the same int64. *)
Lemma wrap64_add_l (a b : Z) : wrap64 (wrap64 a + b) = wrap64 (a + b).
Proof.
  unfold wrap64. f_equal.
  replace ((a + 2 ^ 63) mod 2 ^ 64 - 2 ^ 63 + b + 2 ^ 63)
    with ((a + 2 ^ 63) mod 2 ^ 64 + b) by lia.
  rewrite Zplus_mod_idemp_l. f_equal. lia.
Qed.

Lemma wrap64_total_wrap (l : list Z) :
  wrap64 (total (wrap64 <$> l)) = wrap64 (total l).
Proof.
  induction l as [|x l IH]; csimpl; [done|].
  rewrite wrap64_add_l.
  rewrite (Z.add_comm x), <- wrap64_add_l, IH, wrap64_add_l. f_equal. lia.
Qed.

Lemma fmap_wrap64_small (l : list Z) :
  total (Z.abs <$> l) ≤ 2 ^ 53 → wrap64 <$> l = l.
Proof.
  intros Hb. rewrite <- (list_fmap_id l) at 2. apply list_fmap_ext.
  intros _ x Hx%list_elem_of_lookup_2. simpl.
  pose proof (total_abs_elem l x Hx). apply wrap64_small. lia.
Qed.

Section FloatFacts.
Import Float64.

Lemma round_proper (p q : Q) : (p == q)%Q → round p = round q.
Proof. intros Heq. unfold round. by rewrite (Qred_complete _ _ Heq). Qed.

Lemma Qred_integer (z : Z) : Qred (inject_Z z) = inject_Z z.
Proof.
  apply Qcanon.Qred_identity. unfold inject_Z. simpl. apply Z.gcd_1_r.
Qed.

Lemma round_half_even_1 (n : Z) : round_half_even n 1 = n.
Proof. unfold round_half_even. by rewrite Z.mod_1_r, Z.div_1_r. Qed.

Lemma floor_log2_integer (n : positive) : floor_log2 n 1 = Z.log2 (Z.pos n).
Proof.
  unfold floor_log2. simpl (Z.log2 1). rewrite Z.sub_0_r.
  pose proof (Z.log2_nonneg (Z.pos n)) as Hk.
  pose proof (Z.log2_spec (Z.pos n) ltac:(lia)) as [Hlo _].
  rewrite (proj2 (Z.leb_le _ _) Hk).
  rewrite (proj2 (Z.ltb_ge _ _)); [done|lia].
Qed.

(** A positive integer of at most 53 bits is a float64. *)
Lemma round_pos_small (n : positive) :
  Z.pos n < 2 ^ 53 → round_pos n 1 = Some (inject_Z (Z.pos n)).
Proof.
  intros Hn. unfold round_pos. rewrite floor_log2_integer.
  pose proof (Z.log2_nonneg (Z.pos n)) as Hk.
  assert (Z.log2 (Z.pos n) < 53) as Hk53
    by (apply Z.log2_lt_pow2; lia).
  set (k := Z.log2 (Z.pos n)) in *.
  rewrite Z.max_l by lia.
  rewrite (proj2 (Z.ltb_ge _ _)) by lia.
  rewrite round_half_even_1.
  assert (0 < 2 ^ (- (k - 52))) as Hpow by (apply Z.pow_pos_nonneg; lia).
  assert (Qred (Z.pos n * 2 ^ (- (k - 52)) # Z.to_pos (2 ^ (- (k - 52))))
          = inject_Z (Z.pos n)) as ->.
  { rewrite <- Qred_integer. apply Qred_complete.
    unfold Qeq, inject_Z. cbn [Qnum Qden]. rewrite Z2Pos.id by done. lia. }
  assert (Qle_bool (inject_Z (2 ^ 1024)) (inject_Z (Z.pos n)) = false) as ->; [|done].
  apply not_true_is_false. intros Hle%Qle_bool_iff.
  unfold Qle, inject_Z in Hle. cbn [Qnum Qden] in Hle.
  assert (2 ^ 53 < 2 ^ 1024) by (apply Z.pow_lt_mono_r; lia). lia.
Qed.

Lemma round_pos_2_53 (n : positive) :
  Z.pos n = 2 ^ 53 → round_pos n 1 = Some (inject_Z (Z.pos n)).
Proof.
  intros Hn. assert (n = 9007199254740992%positive) as -> by lia.
  vm_compute. reflexivity.
Qed.

(** Integers up to [2^53] in absolute value are float64 values. *)
Lemma round_integer (z : Z) :
  Z.abs z ≤ 2 ^ 53 → round (inject_Z z) = Fin (inject_Z z).
Proof.
  intros Hz. unfold round. rewrite Qred_integer. unfold inject_Z at 1. cbn [Qnum Qden].
  destruct z as [|n|n]; [done| |].
  - destruct (decide (Z.pos n = 2 ^ 53)) as [Heq|Hne].
    + by rewrite round_pos_2_53.
    + rewrite round_pos_small by lia. done.
  - destruct (decide (Z.pos n = 2 ^ 53)) as [Heq|Hne].
    + by rewrite round_pos_2_53.
    + rewrite round_pos_small by lia. done.
Qed.

Lemma of_Z_exact (z : Z) : Z.abs z ≤ 2 ^ 53 → of_Z z = Fin (inject_Z z).
Proof. apply round_integer. Qed.

Lemma add_integers (a b : Z) :
  Z.abs (a + b) ≤ 2 ^ 53 →
  add (Fin (inject_Z a)) (Fin (inject_Z b)) = Fin (inject_Z (a + b)).
Proof.
  intros Hab. simpl. rewrite <- (round_integer _ Hab).
  apply round_proper. by rewrite inject_Z_plus.
Qed.

Lemma sub_integers (a b : Z) :
  Z.abs (a - b) ≤ 2 ^ 53 →
  sub (Fin (inject_Z a)) (Fin (inject_Z b)) = Fin (inject_Z (a - b)).
Proof.
  intros Hab. unfold sub, opp.
  assert (Qred (- inject_Z b) = inject_Z (- b)) as ->.
  { rewrite <- (Qred_integer (- b)). apply Qred_complete. by rewrite inject_Z_opp. }
  rewrite add_integers by (by replace (a + - b) with (a - b) by lia).
  done.
Qed.

(** The running sum keeps no error while the integers summed stay within
    [2^53]. *)
Lemma kahan_exact (l : list Z) (s : Z) :
  Z.abs s + total (Z.abs <$> l) ≤ 2 ^ 53 →
  foldl kahan_step (Fin (inject_Z s), Fin (inject_Z 0)) (of_Z <$> l)
  = (Fin (inject_Z (s + total l)), Fin (inject_Z 0)).
Proof.
  revert s. induction l as [|x l IH]; intros s Hb; csimpl in *.
  - by rewrite Z.add_0_r.
  - pose proof (total_abs_nonneg l) as Hnn.
    unfold kahan_step at 2. cbn [fst snd].
    rewrite of_Z_exact by lia.
    rewrite (sub_integers x 0) by (rewrite Z.sub_0_r; lia). rewrite Z.sub_0_r.
    rewrite add_integers by lia.
    rewrite (sub_integers (s + x) s) by (replace (s + x - s) with x by lia; lia).
    replace (s + x - s) with x by lia.
    rewrite (sub_integers x x) by (rewrite Z.sub_diag; lia). rewrite Z.sub_diag.
    rewrite IH by lia. do 3 f_equal. lia.
Qed.

(** The mean of integers whose absolute values add up to at most [2^53],
    at most [2^53] of them, is their sum over their number, rounded once. *)
Lemma mean_small (l : list Z) :
  l ≠ [] →
  total (Z.abs <$> l) ≤ 2 ^ 53 →
  Z.of_nat (length l) ≤ 2 ^ 53 →
  mean l = round (total l # Pos.of_nat (length l)).
Proof.
  intros Hne Hsum Hlen. destruct l as [|x l]; [done|]. unfold mean.
  change (Fin 0) with (Fin (inject_Z 0)).
  rewrite (kahan_exact (x :: l) 0) by (simpl (Z.abs 0); lia).
  rewrite Z.add_0_l. rewrite of_Z_exact by lia. cbn [fst].
  unfold div.
  assert ((Qnum (inject_Z (Z.of_nat (length (x :: l)))) =? 0) = false) as ->
    by (apply Z.eqb_neq; unfold inject_Z; cbn [Qnum length]; lia).
  apply round_proper. unfold Qeq, Qdiv, Qmult, Qinv, inject_Z. cbn [Qnum Qden].
  simpl length. rewrite Nat2Z.inj_succ. unfold Z.succ.
  destruct (Z.of_nat (length l) + 1) eqn:Hn; [lia| |lia].
  cbn [Qnum Qden]. rewrite Pos.mul_1_l, !Z.mul_1_r.
  f_equal. lia.
Qed.

(** The mean of the specification depends on the scores, not on their
    order. *)
Lemma mean_if_any_Permutation (l k : list Z) :
  l ≡ₚ k → mean_if_any l = mean_if_any k.
Proof.
  intros Hp. destruct l as [|x l].
  - apply Permutation_nil_l in Hp. by subst.
  - destruct k as [|y k]; [by apply Permutation_nil_r in Hp|].
    unfold mean_if_any.
    by rewrite (total_Permutation _ _ Hp), (Permutation_length Hp).
Qed.

Lemma mean_if_any_small (l : list Z) :
  total (Z.abs <$> l) ≤ 2 ^ 53 →
  Z.of_nat (length l) ≤ 2 ^ 53 →
  match l with [] => None | x :: k => Some (mean (x :: k)) end = mean_if_any l.
Proof.
  intros Hsum Hlen. destruct l as [|x l]; [done|].
  unfold mean_if_any. f_equal. apply (mean_small (x :: l)); done.
Qed.
End FloatFacts.

(** * Facts about the series operations *)

Section SeriesFacts.
Context {K : Type} `{EqDecision K}.

Lemma elem_of_unique (l : list K) (x : K) : x ∈ unique l ↔ x ∈ l.
Proof.
  induction l as [|a l IH]; simpl; [done|].
  rewrite !elem_of_cons, list_elem_of_filter, IH.
  destruct (decide (x = a)); naive_solver.
Qed.

Lemma NoDup_unique (l : list K) : NoDup (unique l).
Proof.
  induction l as [|a l IH]; simpl; [constructor|].
  apply NoDup_cons. split.
  - rewrite list_elem_of_filter. naive_solver.
  - by apply NoDup_filter.
Qed.

Lemma insert_sorted_Permutation {A} (before : A → A → bool) x (l : list A) :
  insert_sorted before x l ≡ₚ x :: l.
Proof.
  induction l as [|q l IH]; simpl; [done|].
  destruct (before q x); [|done].
  rewrite IH. apply Permutation_swap.
Qed.

Lemma sort_by_Permutation {A} (before : A → A → bool) (l : list A) :
  sort_by before l ≡ₚ l.
Proof.
  induction l as [|x l IH]; simpl; [done|].
  unfold sort_by in IH. by rewrite insert_sorted_Permutation, IH.
Qed.

(** A label that occurs once is found with its value. *)
Lemma loc_elem_of {V} (s : list (K * V)) k v :
  NoDup (s.*1) → (k, v) ∈ s → loc s k = Some v.
Proof.
  induction s as [|[k' v'] s IH]; simpl; intros Hnd Hin.
  - by apply elem_of_nil in Hin.
  - apply NoDup_cons in Hnd as [Hk' Hnd].
    apply elem_of_cons in Hin as [Heq|Hin].
    + simplify_eq. by rewrite decide_True.
    + destruct (decide (k' = k)) as [->|]; [|by apply IH].
      destruct Hk'. apply list_elem_of_fmap. by exists (k, v).
Qed.

Lemma loc_Some_elem_of {V} (s : list (K * V)) k v :
  loc s k = Some v → (k, v) ∈ s.
Proof.
  induction s as [|[k' v'] s IH]; simpl; [done|].
  destruct (decide (k' = k)) as [->|]; intros Hl.
  - simplify_eq. apply elem_of_cons; by left.
  - apply elem_of_cons; right. by apply IH.
Qed.

Lemma loc_None {V} (s : list (K * V)) k : loc s k = None ↔ k ∉ s.*1.
Proof.
  induction s as [|[k' v'] s IH]; csimpl.
  - split; [intros _; apply not_elem_of_nil|done].
  - rewrite not_elem_of_cons. destruct (decide (k' = k)); naive_solver.
Qed.

(** Reordering a series with distinct labels does not change a lookup. *)
Lemma loc_Permutation {V} (s s' : list (K * V)) k :
  NoDup (s.*1) → s ≡ₚ s' → loc s k = loc s' k.
Proof.
  intros Hnd Hp.
  assert (NoDup (s'.*1)) as Hnd' by (by rewrite <- Hp).
  destruct (loc s k) as [v|] eqn:Hs.
  - symmetry. apply loc_elem_of; [done|].
    rewrite <- Hp. by apply loc_Some_elem_of.
  - symmetry. apply loc_None. rewrite <- Hp. by apply loc_None.
Qed.

Lemma loc_tabulate {V} (f : K → V) (ks : list K) k :
  loc ((λ k, (k, f k)) <$> ks) k = if decide (k ∈ ks) then Some (f k) else None.
Proof.
  induction ks as [|a ks IH]; csimpl; [done|].
  destruct (decide (a = k)) as [->|Hne].
  - rewrite decide_True; [done|]. apply elem_of_cons; by left.
  - rewrite IH. destruct (decide (k ∈ ks)) as [Hin|Hnin].
    + rewrite decide_True; [done|]. apply elem_of_cons; by right.
    + rewrite decide_False; [done|]. rewrite not_elem_of_cons. naive_solver.
Qed.

Lemma fst_tabulate {V} (f : K → V) (ks : list K) :
  ((λ k, (k, f k)) <$> ks).*1 = ks.
Proof. rewrite <- list_fmap_compose. apply list_fmap_id. Qed.

Lemma loc_agg {R V} (f : list R → V) (g : list (K * list R)) k :
  loc (agg f g) k = f <$> loc g k.
Proof.
  induction g as [|[k' rs] g IH]; csimpl; [done|].
  destruct (decide (k' = k)); [done|]. apply IH.
Qed.

Lemma fst_agg {R V} (f : list R → V) (g : list (K * list R)) :
  (agg f g).*1 = g.*1.
Proof.
  unfold agg. rewrite <- list_fmap_compose. apply list_fmap_ext.
  by intros _ [? ?] _.
Qed.

Lemma NoDup_groupby_keys {R} before (key : R → option K) (rows : list R) :
  NoDup ((groupby before key rows).*1).
Proof.
  unfold groupby. rewrite fst_tabulate, sort_by_Permutation.
  apply NoDup_unique.
Qed.

(** The group of a key holds the rows of that key; a key without rows has
    no group. *)
Lemma loc_groupby {R} before (key : R → option K) (rows : list R) k :
  loc (groupby before key rows) k =
    match filter (λ r, key r = Some k) rows with
    | [] => None
    | g => Some g
    end.
Proof.
  unfold groupby. rewrite loc_tabulate.
  destruct (decide (k ∈ sort_by before (unique (omap key rows)))) as [Hin|Hnin].
  - rewrite sort_by_Permutation, elem_of_unique, list_elem_of_omap in Hin.
    destruct Hin as (r & Hr & Hk).
    destruct (filter (λ r, key r = Some k) rows) eqn:Hf; [|done].
    assert (r ∈ filter (λ r, key r = Some k) rows) as Hrf
      by (by apply list_elem_of_filter).
    rewrite Hf in Hrf. by apply elem_of_nil in Hrf.
  - destruct (filter (λ r, key r = Some k) rows) as [|r g] eqn:Hf; [done|].
    destruct Hnin. rewrite sort_by_Permutation, elem_of_unique, list_elem_of_omap.
    assert (r ∈ filter (λ r, key r = Some k) rows) as Hrf
      by (rewrite Hf; apply elem_of_cons; by left).
    apply list_elem_of_filter in Hrf as [Hk Hr]. by exists r.
Qed.
End SeriesFacts.

Section CountFacts.
Context {K : Type} `{EqDecision K}.

Lemma NoDup_counts_desc (present : list K) : NoDup ((counts_desc present).*1).
Proof.
  unfold counts_desc, sort_values_desc.
  rewrite sort_by_Permutation, fst_tabulate. apply NoDup_unique.
Qed.

Lemma loc_counts_desc (present : list K) (v : K) :
  loc (counts_desc present) v =
    if decide (v ∈ present) then Some (length (filter (λ x, x = v) present)) else None.
Proof.
  unfold counts_desc, sort_values_desc.
  set (t := (λ k, (k, length (filter (λ x, x = k) present))) <$> unique present).
  assert (NoDup (t.*1)) as Hnd
    by (subst t; rewrite fst_tabulate; apply NoDup_unique).
  rewrite <- (loc_Permutation t (sort_by _ t) v Hnd)
    by (by rewrite sort_by_Permutation).
  subst t.
  rewrite loc_tabulate.
  destruct (decide (v ∈ unique present)) as [Hin|Hnin];
    rewrite elem_of_unique in *; [by rewrite decide_True|by rewrite decide_False].
Qed.

Lemma elem_of_head {A} (n : nat) (l : list A) (x : A) : x ∈ head n l → x ∈ l.
Proof. unfold head. intros Hx. eapply elem_of_sublist; [done|apply sublist_take]. Qed.

Lemma loc_head {V} (n : nat) (s : list (K * V)) (k : K) :
  NoDup (s.*1) →
  loc (head n s) k = None ∨ loc (head n s) k = loc s k.
Proof.
  intros Hnd. destruct (loc (head n s) k) as [v|] eqn:Hl; [right|by left].
  symmetry. apply loc_elem_of; [done|].
  eapply elem_of_head. by apply loc_Some_elem_of.
Qed.
End CountFacts.

Lemma filter_notnull_idemp (c : column) :
  filter (λ v, notnull v) (dropna c) = dropna c.
Proof. unfold dropna. by apply list_filter_filter_r. Qed.

Lemma occurrences_dropna (c : column) (v : value) :
  v ≠ VNull → length (filter (λ x, x = v) (dropna c)) = occurrences c v.
Proof.
  intros Hv. unfold dropna, occurrences. rewrite list_filter_filter.
  f_equal. apply list_filter_iff. intros x. split; [naive_solver|].
  intros ->. split; [done|]. by destruct v.
Qed.

Lemma loc_value_counts (c : column) (v : value) :
  loc (value_counts c) v =
    if decide (v = VNull ∨ occurrences c v = 0%nat) then None
    else Some (occurrences c v).
Proof.
  unfold value_counts. rewrite loc_counts_desc.
  fold (dropna c).
  destruct (decide (v = VNull)) as [->|Hv].
  - rewrite decide_False, decide_True; [done|by left|].
    unfold dropna. rewrite list_elem_of_filter. naive_solver.
  - rewrite occurrences_dropna by done.
    assert (v ∈ dropna c ↔ occurrences c v ≠ 0%nat) as Hiff.
    { rewrite <- (occurrences_dropna c v Hv).
      rewrite length_zero_iff_nil. split.
      - intros Hin Hnil.
        assert (v ∈ filter (λ x, x = v) (dropna c)) as Hf
          by (by apply list_elem_of_filter).
        rewrite Hnil in Hf. by apply elem_of_nil in Hf.
      - intros Hne. destruct (filter (λ x, x = v) (dropna c)) as [|x l] eqn:Hf; [done|].
        assert (x ∈ filter (λ x, x = v) (dropna c)) as Hx
          by (rewrite Hf; apply elem_of_cons; by left).
        apply list_elem_of_filter in Hx as [-> Hx]. done. }
    destruct (decide (v ∈ dropna c)) as [Hin|Hnin].
    + rewrite decide_False; [done|]. intros [?|?]; [done|]. by apply Hiff in Hin.
    + rewrite decide_True; [done|]. right.
      destruct (decide (occurrences c v = 0%nat)); [done|]. destruct Hnin. by apply Hiff.
Qed.

(** * Step 3: teams with most wins *)

(** C9. For every match table with a winner column, step 3 charts
    [top_winners] of that column, and that series holds no missing winner,
    whatever the column holds: each of its at most ten entries is a non-null
    value with the number of times it occurs in the column, and a null label
    is looked up in vain. *)
Theorem top_winners_excludes_null (matches_df : DataFrame) (winner : column) :
  matches_df !! "winner" = Some winner →
  step3 matches_df
    = Run [Print "Plotting: Top 10 Teams with Most Wins...";
           Show (TopWinners (top_winners winner))] (Finished tt)
  ∧ (VNull ∉ (top_winners winner).*1)
  ∧ loc (top_winners winner) VNull = None
  ∧ Forall (λ p, p.1 ≠ VNull ∧ p.2 = occurrences winner p.1 ∧ (0 < p.2)%nat)
           (top_winners winner)
  ∧ (length (top_winners winner) ≤ 10)%nat.
Proof.
  intros Hw.
  assert (Forall (λ p, p.1 ≠ VNull ∧ p.2 = occurrences winner p.1 ∧ (0 < p.2)%nat)
            (top_winners winner)) as Hall.
  { apply Forall_forall. intros [k n] Hin. simpl.
    unfold top_winners, dropna_counts in Hin. apply elem_of_head in Hin.
    assert (loc (value_counts winner) k = Some n) as Hl.
    { apply loc_elem_of; [apply NoDup_counts_desc|done]. }
    rewrite loc_value_counts in Hl. case_decide as Hd; [done|].
    simplify_eq. split_and!; [naive_solver|done|lia]. }
  assert (VNull ∉ (top_winners winner).*1) as Hnull.
  { intros ([k n] & Hk & Hin)%list_elem_of_fmap. simpl in Hk. subst k.
    rewrite Forall_forall in Hall. by destruct (Hall _ Hin) as [? _]. }
  split_and!; [|done|by apply loc_None|done|].
  - unfold step3, getitem. by rewrite Hw.
  - unfold top_winners, head. rewrite length_take. lia.
Qed.

Lemma top_winners_excludes_null_witness :
  top_winners [VStr "A"; VNull; VStr "B"; VNull; VNull; VStr "B"]
    = [(VStr "B", 2%nat); (VStr "A", 1%nat)]
  ∧ (VNull ∉ (top_winners [VStr "A"; VNull; VStr "B"; VNull; VNull; VStr "B"]).*1).
Proof.
  split; [reflexivity|].
  apply (top_winners_excludes_null
           {[ "winner" := [VStr "A"; VNull; VStr "B"; VNull; VNull; VStr "B"] ]}).
  reflexivity.
Defined.

(** * Step 6: player of the match awards *)

(** C10. The two branches of step 6 compute the same series: with or without
    null values in the column, [pom_counts] is [value_counts] of the column,
    and it is [value_counts] of the column without its nulls; looked up at
    any value it gives the occurrence count of that value among the non-null
    cells (nothing for a null or for a value that does not occur). In both
    branches step 6 hands the first fifteen of it to the pie plot: when the
    plot is drawn the chart is shown, last, and the step ends normally; when
    the plot raises, the step ends with that exception and shows no chart.
    Only the note differs. *)
Theorem pom_counts_branches_agree (player_of_match : column) (v : value) :
  pom_counts player_of_match = value_counts player_of_match
  ∧ pom_counts player_of_match = value_counts (dropna player_of_match)
  ∧ pom_counts player_of_match = counts_desc (dropna player_of_match)
  ∧ loc (pom_counts player_of_match) v
      = (if decide (v = VNull ∨ occurrences player_of_match v = 0%nat) then None
         else Some (occurrences player_of_match v))
  ∧ ∀ (plot : chart → result unit) (matches_df : DataFrame),
      match plot (PlayerOfMatch (head 15 (value_counts player_of_match))) with
      | Ok _ =>
          outcome (step6 plot (<["player_of_match" := player_of_match]> matches_df))
            = Finished tt
          ∧ last (output (step6 plot (<["player_of_match" := player_of_match]> matches_df)))
            = Some (Show (PlayerOfMatch (head 15 (value_counts player_of_match))))
      | Raised e =>
          outcome (step6 plot (<["player_of_match" := player_of_match]> matches_df))
            = Uncaught e
          ∧ ∀ c, Show c ∉ output (step6 plot (<["player_of_match" := player_of_match]>
                                                matches_df))
      end.
Proof.
  assert (value_counts (dropna player_of_match) = value_counts player_of_match) as Hvc.
  { unfold value_counts. by rewrite filter_notnull_idemp. }
  assert (pom_counts player_of_match = value_counts player_of_match) as Hpc.
  { unfold pom_counts. by destruct (existsb isnull player_of_match). }
  split_and!; [done|congruence|done| |].
  - rewrite Hpc. apply loc_value_counts.
  - intros plot matches_df. unfold step6, display, getitem.
    rewrite lookup_insert_eq.
    cbn -[pretty head pom_counts value_counts]. rewrite Hpc.
    destruct (plot (PlayerOfMatch (head 15 (value_counts player_of_match)))) as [[]|e];
      destruct (existsb isnull player_of_match);
      cbn -[pretty head value_counts]; (split; [done|]); try done;
      intros c Hc;
      repeat (apply elem_of_cons in Hc as [Hc|Hc]; [discriminate Hc|]);
      by apply elem_of_nil in Hc.
Qed.

(** * Step 7: top wicket takers *)

Lemma isin_bowler_wicket (r : delivery) :
  isin dismissal_types_for_bowler (dismissal_kind r) ↔ bowler_wicket r.
Proof.
  unfold isin, bowler_wicket, dismissal_types_for_bowler.
  destruct (dismissal_kind r) as [k|]; [|done].
  rewrite bool_decide_spec, !elem_of_cons, elem_of_nil. naive_solver.
Qed.

Lemma count_dismissal_kind_wickets (deliveries_df : list delivery) (name : string) :
  count_dismissal_kind
    (filter (λ r, Some (bowler r) = Some name) (wickets_df deliveries_df))
  = wickets_of deliveries_df name.
Proof.
  unfold count_dismissal_kind, wickets_of, wickets_df.
  rewrite !list_filter_filter. f_equal. apply list_filter_iff. intros r.
  rewrite isin_bowler_wicket. unfold bowler_wicket.
  destruct (dismissal_kind r); naive_solver.
Qed.

Lemma loc_wickets_by_bowler (deliveries_df : list delivery) (name : string) :
  loc (wickets_by_bowler deliveries_df) name =
    if decide (wickets_of deliveries_df name = 0%nat) then None
    else Some (wickets_of deliveries_df name).
Proof.
  unfold wickets_by_bowler. rewrite loc_agg, loc_groupby.
  pose proof (count_dismissal_kind_wickets deliveries_df name) as Hc.
  destruct (filter (λ r, Some (bowler r) = Some name) (wickets_df deliveries_df))
    as [|r g] eqn:Hf.
  - simpl in *. by rewrite <- Hc.
  - simpl. rewrite Hc.
    assert (r ∈ filter (λ r, Some (bowler r) = Some name) (wickets_df deliveries_df))
      as Hr by (rewrite Hf; apply elem_of_cons; by left).
    unfold wickets_df in Hr.
    rewrite !list_elem_of_filter, isin_bowler_wicket in Hr.
    destruct Hr as (Hb & Hw & Hin).
    assert (r ∈ filter (λ r, bowler r = name ∧ bowler_wicket r) deliveries_df) as Hr'
      by (apply list_elem_of_filter; naive_solver).
    rewrite decide_False; [done|].
    unfold wickets_of. intros Hz%length_zero_iff_nil.
    rewrite Hz in Hr'. by apply elem_of_nil in Hr'.
Qed.

(** C4. For every delivery table and every bowler name: grouping the wicket
    rows by bowler gives that bowler the number of delivery rows whose bowler
    is that name and whose dismissal kind is one of the six (no entry when
    there is none); the count that step 7 charts for the bowler, when the
    bowler is among the fifteen charted, is that number; and a row with
    another dismissal kind (run out) or with none changes nothing. *)
Theorem top_bowlers_count (deliveries_df : list delivery) (name : string) :
  loc (wickets_by_bowler deliveries_df) name
    = (if decide (wickets_of deliveries_df name = 0%nat) then None
       else Some (wickets_of deliveries_df name))
  ∧ (loc (top_bowlers deliveries_df) name = None
     ∨ loc (top_bowlers deliveries_df) name = Some (wickets_of deliveries_df name))
  ∧ (if decide (length (wickets_by_bowler deliveries_df) ≤ 15)%nat
     then loc (top_bowlers deliveries_df) name = loc (wickets_by_bowler deliveries_df) name
     else length (top_bowlers deliveries_df) = 15%nat)
  ∧ ∀ m o bat runs total,
      let run_out := Delivery m o bat name runs total (Some "run out") in
      let no_wicket := Delivery m o bat name runs total None in
      wickets_of (run_out :: deliveries_df) name = wickets_of deliveries_df name
      ∧ top_bowlers (run_out :: deliveries_df) = top_bowlers deliveries_df
      ∧ top_bowlers (no_wicket :: deliveries_df) = top_bowlers deliveries_df.
Proof.
  pose proof (loc_wickets_by_bowler deliveries_df name) as Hloc.
  assert (NoDup ((sort_values_desc Nat.ltb (wickets_by_bowler deliveries_df)).*1)) as Hnd.
  { unfold sort_values_desc, wickets_by_bowler.
    rewrite sort_by_Permutation, fst_agg. apply NoDup_groupby_keys. }
  assert (loc (sort_values_desc Nat.ltb (wickets_by_bowler deliveries_df)) name
          = loc (wickets_by_bowler deliveries_df) name) as Hsort.
  { symmetry. apply loc_Permutation.
    - unfold wickets_by_bowler. rewrite fst_agg. apply NoDup_groupby_keys.
    - unfold sort_values_desc. by rewrite sort_by_Permutation. }
  split_and!.
  - done.
  - unfold top_bowlers.
    destruct (loc_head 15 _ name Hnd) as [Hn|He]; [by left|].
    rewrite He, Hsort, Hloc. case_decide; [by left|by right].
  - destruct (decide (length (wickets_by_bowler deliveries_df) ≤ 15)%nat) as [Hlen|Hlen].
    + unfold top_bowlers, head. rewrite take_ge; [exact Hsort|].
      unfold sort_values_desc. by rewrite sort_by_Permutation.
    + unfold top_bowlers, head, sort_values_desc.
      rewrite length_take, sort_by_Permutation. lia.
  - intros m o bat runs total. simpl. split_and!.
    + unfold wickets_of. rewrite filter_cons_False; [done|].
      unfold bowler_wicket. simpl. naive_solver.
    + unfold top_bowlers, wickets_by_bowler, wickets_df.
      rewrite filter_cons_False; [done|].
      rewrite isin_bowler_wicket. unfold bowler_wicket. simpl. naive_solver.
    + unfold top_bowlers, wickets_by_bowler, wickets_df.
      rewrite filter_cons_False; [done|].
      rewrite isin_bowler_wicket. unfold bowler_wicket. simpl. naive_solver.
Qed.

(** * Step 8: estimated runs per over *)

Lemma loc_map_values {K} `{EqDecision K} {V W} (f : V → W) (s : list (K * V)) k :
  loc (prod_map id f <$> s) k = f <$> loc s k.
Proof.
  induction s as [|[k' v] s IH]; csimpl; [done|].
  destruct (decide (k' = k)); [done|]. apply IH.
Qed.

Lemma loc_mean_per_over (deliveries_df : list delivery) (o : Z) :
  o ∈ over <$> deliveries_df →
  loc (agg (λ g, mean (total_runs <$> g))
         (groupby Z.ltb (λ r, Some (over r)) deliveries_df)) o
  = Some (mean (runs_of_over deliveries_df o))
  ∧ runs_of_over deliveries_df o ≠ [].
Proof.
  intros (r & Hr & Hin)%list_elem_of_fmap.
  rewrite loc_agg, loc_groupby. unfold runs_of_over.
  rewrite (list_filter_iff (λ r, Some (over r) = Some o) (λ r, over r = o))
    by (intros ?; split; [by intros [= ->]|by intros ->]).
  assert (r ∈ filter (λ r, over r = o) deliveries_df) as Hf
    by (by apply list_elem_of_filter).
  destruct (filter (λ r, over r = o) deliveries_df) as [|r' g].
  - by apply elem_of_nil in Hf.
  - done.
Qed.

(** C5. For every delivery table and every over number present in it, the
    rate step 8 charts for the over is the float64 mean of the total runs of
    the over's deliveries, times 6 in float64. Whenever the runs of the over
    add up, in absolute value, to no more than 2^53 (and there are no more
    deliveries than that), this is the sum of the runs over their number,
    rounded to the nearest float64, times 6, rounded again. An over with a
    single delivery of one run has rate exactly 6; an over of ten deliveries
    with one run in all has the float64 next above 0.6. *)
Theorem avg_runs_per_over_rate (deliveries_df : list delivery) (o : Z) :
  o ∈ over <$> deliveries_df →
  loc (avg_runs_per_over deliveries_df) o
    = Some (fmul (mean (runs_of_over deliveries_df o)) 6)
  ∧ (total (Z.abs <$> runs_of_over deliveries_df o) ≤ 2 ^ 53 →
     Z.of_nat (length (runs_of_over deliveries_df o)) ≤ 2 ^ 53 →
     loc (avg_runs_per_over deliveries_df) o
       = Some (Float64.mul
                 (Float64.round (total (runs_of_over deliveries_df o)
                                 # Pos.of_nat (length (runs_of_over deliveries_df o))))
                 (Fin 6)))
  ∧ (runs_of_over deliveries_df o = [1] →
     loc (avg_runs_per_over deliveries_df) o = Some (Fin 6))
  ∧ (runs_of_over deliveries_df o = [1; 0; 0; 0; 0; 0; 0; 0; 0; 0] →
     loc (avg_runs_per_over deliveries_df) o
       = Some (Fin (1351079888211149 # 2251799813685248))).
Proof.
  intros Ho. destruct (loc_mean_per_over _ _ Ho) as [Hloc Hne].
  assert (loc (avg_runs_per_over deliveries_df) o
          = Some (fmul (mean (runs_of_over deliveries_df o)) 6)) as Hrate.
  { unfold avg_runs_per_over. by rewrite loc_map_values, Hloc. }
  split_and!; [done| | |].
  - intros Hsum Hlen. rewrite Hrate, (mean_small _ Hne Hsum Hlen). reflexivity.
  - intros Hone. rewrite Hrate, Hone. vm_compute. reflexivity.
  - intros Hten. rewrite Hrate, Hten. vm_compute. reflexivity.
Qed.

Lemma avg_runs_per_over_rate_witness :
  loc (avg_runs_per_over [Instances.ball 7 3 1]) 3 = Some (Fin 6).
Proof.
  refine (proj1 (proj2 (proj2 (avg_runs_per_over_rate [Instances.ball 7 3 1] 3 _))) _).
  - apply elem_of_cons. left. reflexivity.
  - reflexivity.
Defined.

(** * Preprocessing of the match table *)

Section Preprocessing.
Context (to_datetime : column → result (list (option date))).

Lemma renamed_lookup_other (matches_df : DataFrame) (name : string) :
  name ≠ "id" → name ≠ "match_id" →
  renamed matches_df !! name = matches_df !! name.
Proof.
  intros Hid Hmid. unfold renamed, rename.
  destruct (_ && _); [|done].
  destruct (matches_df !! "id"); [|done].
  by rewrite lookup_insert_ne, lookup_delete_ne.
Qed.

(** Preprocessing always ends normally, with the table renamed and, when
    the date column converts, with the date and season columns set. *)
Lemma preprocess_outcome (matches_df : DataFrame) :
  outcome (preprocess to_datetime matches_df) =
    Finished
      match getitem (renamed matches_df) "date" ≫= to_datetime with
      | Ok dates =>
          <["season" := dt_year dates]>
            (<["date" := datetime_column dates]> (renamed matches_df))
      | Raised _ => renamed matches_df
      end.
Proof.
  unfold preprocess, renamed, convert_date.
  destruct (_ && _); cbn -[rename getitem];
    destruct (getitem _ "date" ≫= to_datetime) as [dates|e]; try done;
    by destruct e.
Qed.

Lemma preprocess_output_without_date (matches_df : DataFrame) :
  matches_df !! "date" = None →
  last (output (preprocess to_datetime matches_df))
    = Some (Print "Warning: 'date' column not found in matches_df during conversion.").
Proof.
  intros Hd.
  pose proof (renamed_lookup_other matches_df "date") as Hr.
  rewrite Hd in Hr. unfold renamed in Hr.
  unfold preprocess, convert_date, getitem.
  destruct (_ && _); cbn -[rename]; rewrite Hr by done; done.
Qed.

(** C6. For every match table lacking a date column, preprocessing ends
    normally (no exception leaves it); the last line it writes is the
    warning that the date column was not found; and the season column of
    the resulting table is the one the table had before: absent if it was
    absent, unchanged otherwise. *)
Theorem preprocess_without_date (matches_df : DataFrame) :
  matches_df !! "date" = None →
  ∃ matches_df',
    outcome (preprocess to_datetime matches_df) = Finished matches_df'
    ∧ matches_df' = renamed matches_df
    ∧ matches_df' !! "season" = matches_df !! "season"
    ∧ matches_df' !! "date" = None
    ∧ last (output (preprocess to_datetime matches_df))
        = Some (Print "Warning: 'date' column not found in matches_df during conversion.").
Proof.
  intros Hd. exists (renamed matches_df).
  assert (renamed matches_df !! "date" = None) as Hrd
    by (by rewrite renamed_lookup_other).
  split_and!; [|done|by apply renamed_lookup_other|done
               |by apply preprocess_output_without_date].
  rewrite preprocess_outcome. unfold getitem. by rewrite Hrd.
Qed.

Lemma preprocess_with_dates (matches_df : DataFrame) (texts : column)
    (dates : list (option date)) :
  matches_df !! "date" = Some texts →
  to_datetime texts = Ok dates →
  outcome (preprocess to_datetime matches_df)
    = Finished (<["season" := dt_year dates]>
                  (<["date" := datetime_column dates]> (renamed matches_df))).
Proof.
  intros Hd Hconv. rewrite preprocess_outcome. unfold getitem.
  rewrite renamed_lookup_other by done. rewrite Hd. simpl. by rewrite Hconv.
Qed.

Lemma dt_year_lookup (dates : list (option date)) (i : nat) (d : date) :
  datetime_column dates !! i = Some (VDate d) →
  dt_year dates !! i = Some (VInt (year d)).
Proof.
  unfold datetime_column, dt_year. rewrite !list_lookup_fmap.
  destruct (dates !! i) as [[d'|]|]; simpl; [|done..].
  by intros [= ->].
Qed.

(** C2. For every match table whose date column converts to dates with no
    missing one, preprocessing ends normally; every row of the resulting
    table has a date, and its season is the calendar year of that date; and
    a season column the table had before is overwritten: whatever it held,
    the resulting season column is the same. *)
Theorem preprocess_season_is_year (matches_df : DataFrame) (texts : column)
    (dates : list (option date)) :
  matches_df !! "date" = Some texts →
  to_datetime texts = Ok dates →
  Forall is_Some dates →
  ∃ matches_df' parsed season,
    outcome (preprocess to_datetime matches_df) = Finished matches_df'
    ∧ matches_df' !! "date" = Some parsed
    ∧ matches_df' !! "season" = Some season
    ∧ length season = length parsed
    ∧ (∀ i, (i < length parsed)%nat →
            ∃ d, parsed !! i = Some (VDate d) ∧ season !! i = Some (VInt (year d)))
    ∧ (∀ old, ∃ matches_df'',
          outcome (preprocess to_datetime (<["season" := old]> matches_df))
            = Finished matches_df''
          ∧ matches_df'' !! "season" = Some season).
Proof.
  intros Hd Hconv Hall.
  eexists _, (datetime_column dates), (dt_year dates). split_and!.
  - by apply (preprocess_with_dates _ texts).
  - rewrite lookup_insert_ne by done. by rewrite lookup_insert_eq.
  - by rewrite lookup_insert_eq.
  - unfold dt_year, datetime_column. by rewrite !length_fmap.
  - intros i Hi. unfold datetime_column in Hi. rewrite length_fmap in Hi.
    destruct (lookup_lt_is_Some_2 dates i Hi) as [od Hod].
    rewrite Forall_forall in Hall.
    destruct (Hall od) as [d ->]; [by eapply list_elem_of_lookup_2|].
    exists d. split; [|apply dt_year_lookup];
      unfold datetime_column; by rewrite list_lookup_fmap, Hod.
  - intros old. eexists. split.
    + apply (preprocess_with_dates _ texts); [|done].
      by rewrite lookup_insert_ne.
    + by rewrite lookup_insert_eq.
Qed.

(** Apart from the date and season columns, the preprocessed table is the
    renamed one. *)
Lemma preprocess_other_columns (matches_df : DataFrame) :
  ∃ matches_df',
    outcome (preprocess to_datetime matches_df) = Finished matches_df'
    ∧ ∀ name, name ≠ "date" → name ≠ "season" →
              matches_df' !! name = renamed matches_df !! name.
Proof.
  eexists. split; [apply preprocess_outcome|].
  intros name Hd Hs.
  destruct (getitem _ "date" ≫= to_datetime); [|done].
  by rewrite !lookup_insert_ne.
Qed.

(** C3. For every match table with an id column: when it has no match_id
    column, the preprocessed table has a match_id column with the values of
    the former id column and no id column; when it has both, both are left
    as they were. *)
Theorem preprocess_renames_id (matches_df : DataFrame) (ids : column) :
  matches_df !! "id" = Some ids →
  ∃ matches_df',
    outcome (preprocess to_datetime matches_df) = Finished matches_df'
    ∧ match matches_df !! "match_id" with
      | None => matches_df' !! "match_id" = Some ids ∧ matches_df' !! "id" = None
      | Some match_ids =>
          matches_df' !! "match_id" = Some match_ids ∧ matches_df' !! "id" = Some ids
      end.
Proof.
  intros Hid.
  destruct (preprocess_other_columns matches_df) as (matches_df' & Hrun & Hcols).
  exists matches_df'. split; [done|].
  rewrite !Hcols by done. unfold renamed, rename. rewrite Hid.
  rewrite (bool_decide_true (is_Some (Some ids))) by (by eexists).
  destruct (matches_df !! "match_id") as [match_ids|] eqn:Hmid.
  - rewrite bool_decide_false by done. simpl. by rewrite Hid, Hmid.
  - rewrite bool_decide_true by done. simpl.
    rewrite lookup_insert_eq. by rewrite lookup_insert_ne, lookup_delete_eq.
Qed.
End Preprocessing.

Lemma preprocess_without_date_witness :
  Instances.undated_matches !! "date" = None
  ∧ ∃ matches_df',
      outcome (preprocess Instances.iso_to_datetime Instances.undated_matches)
        = Finished matches_df'
      ∧ matches_df' !! "season" = Some [VInt 2019; VInt 2019].
Proof.
  split; [reflexivity|].
  destruct (preprocess_without_date Instances.iso_to_datetime
              Instances.undated_matches eq_refl)
    as (matches_df' & Hrun & _ & Hseason & _).
  exists matches_df'. split; [exact Hrun|]. rewrite Hseason. reflexivity.
Defined.

Lemma preprocess_season_is_year_witness :
  ∃ matches_df',
    outcome (preprocess Instances.iso_to_datetime Instances.id_matches)
      = Finished matches_df'
    ∧ matches_df' !! "season" = Some [VInt 2008; VInt 2009].
Proof.
  destruct (preprocess_season_is_year Instances.iso_to_datetime Instances.id_matches
              [VStr "2008-04-18"; VStr "2009-04-18"]
              [Some (Date 2008 4 18); Some (Date 2009 4 18)])
    as (matches_df' & parsed & season & Hrun & Hdate & Hseason & Hlen & Hrows & _).
  - reflexivity.
  - reflexivity.
  - repeat constructor; eexists; reflexivity.
  - exists matches_df'. split; [exact Hrun|].
    vm_compute in Hrun. injection Hrun as <-.
    vm_compute in Hseason. injection Hseason as <-.
    reflexivity.
Defined.

Lemma preprocess_renames_id_witness :
  ∃ matches_df',
    outcome (preprocess Instances.iso_to_datetime Instances.id_matches)
      = Finished matches_df'
    ∧ matches_df' !! "match_id" = Some [VInt 11; VInt 12]
    ∧ matches_df' !! "id" = None.
Proof.
  destruct (preprocess_renames_id Instances.iso_to_datetime Instances.id_matches
              [VInt 11; VInt 12] eq_refl)
    as (matches_df' & Hrun & Hcols).
  exists matches_df'. split; [exact Hrun|exact Hcols].
Defined.

(** * Loading *)

Section Loading.
Context (to_datetime : column → result (list (option date))).
Context (sorted : column → result column).
Context (plot : chart → result unit).
Context (xticks : column → result unit).

(** The loader on its own, by what the two reads find. *)
Lemma load_not_found (w : world) :
  deliveries_files w (deliveries_path (the_script_dir w)) = Absent
  ∨ ((∃ t, deliveries_files w (deliveries_path (the_script_dir w)) = Table t)
     ∧ matches_files w (matches_path (the_script_dir w)) = Absent) →
  load w
    = Run (loading_lines w
           ++ [Print (nl +:+ "--- ERROR ---");
               Print "Could not find 'deliveries.csv' or 'matches.csv' at the expected paths.";
               Print ("Please ensure both files exist in the directory: " +:+ the_script_dir w);
               Print ("(Your current working directory is: " +:+ getcwd w +:+ ")")])
          (SystemExit None).
Proof.
  unfold load, script_dir, loading_lines, the_script_dir, read_csv, try_except.
  intros [Hd|[[t Hd] Hm]]; destruct (dirname_of_file w); cbn in *;
    rewrite Hd; cbn; rewrite ?Hm; reflexivity.
Qed.

Lemma load_unreadable (w : world) (class msg : string) :
  deliveries_files w (deliveries_path (the_script_dir w)) = Unreadable class msg
  ∨ ((∃ t, deliveries_files w (deliveries_path (the_script_dir w)) = Table t)
     ∧ matches_files w (matches_path (the_script_dir w)) = Unreadable class msg) →
  load w
    = Run (loading_lines w
           ++ [Print (nl +:+ "--- ERROR ---");
               Print ("An unexpected error occurred during file loading: " +:+ msg)])
          (SystemExit None).
Proof.
  unfold load, script_dir, loading_lines, the_script_dir, read_csv, try_except.
  intros [Hd|[[t Hd] Hm]]; destruct (dirname_of_file w); cbn in *;
    rewrite Hd; cbn; rewrite ?Hm; reflexivity.
Qed.

(** The loader never lets an exception out: it hands over the two tables
    or it exits. *)
Lemma load_outcome (w : world) :
  (∃ t t', deliveries_files w (deliveries_path (the_script_dir w)) = Table t
           ∧ matches_files w (matches_path (the_script_dir w)) = Table t')
  ∨ outcome (load w) = SystemExit None.
Proof.
  unfold load, script_dir, the_script_dir, read_csv, try_except.
  destruct (dirname_of_file w); cbn;
    destruct (deliveries_files w _) as [|c1 m1|t]; cbn;
    try destruct (matches_files w _) as [|c2 m2|t']; cbn;
    try (right; reflexivity); left; eauto.
Qed.

(** After a loader that exits, nothing runs. *)
Lemma main_after_exit (w : world) (c : option Z) :
  outcome (load w) = SystemExit c →
  main to_datetime sorted plot xticks w = Run (output (load w)) (SystemExit c).
Proof.
  intros Hload. unfold main, mbind, M_bind. by rewrite Hload.
Qed.

(** C8, as the script has it. Let the files be looked up at the two paths
    the loader prints. If the deliveries file is absent, or it loads and
    the matches file is absent, the run writes the loading lines (with both
    paths) and the error block naming the two files, the script directory
    and the current working directory, and ends there with [SystemExit]
    carrying no code. If instead the first failing read raises another
    exception, the run writes the loading lines and the error block with
    the exception's message and ends the same way. Either way nothing of
    the reporting, preprocessing or analysis is written, and the process
    status is 0. *)
Theorem load_failure_stops (w : world) :
  let dir := the_script_dir w in
  let d := deliveries_files w (deliveries_path dir) in
  let m := matches_files w (matches_path dir) in
  (d = Absent ∨ ((∃ t, d = Table t) ∧ m = Absent) →
   main to_datetime sorted plot xticks w
     = Run (loading_lines w
            ++ [Print (nl +:+ "--- ERROR ---");
                Print "Could not find 'deliveries.csv' or 'matches.csv' at the expected paths.";
                Print ("Please ensure both files exist in the directory: " +:+ dir);
                Print ("(Your current working directory is: " +:+ getcwd w +:+ ")")])
           (SystemExit None))
  ∧ (∀ class msg,
       d = Unreadable class msg ∨ ((∃ t, d = Table t) ∧ m = Unreadable class msg) →
       main to_datetime sorted plot xticks w
         = Run (loading_lines w
                ++ [Print (nl +:+ "--- ERROR ---");
                    Print ("An unexpected error occurred during file loading: " +:+ msg)])
               (SystemExit None))
  ∧ ((∃ t t', d = Table t ∧ m = Table t')
     ∨ (main to_datetime sorted plot xticks w = Run (output (load w)) (SystemExit None)
        ∧ exit_status (outcome (main to_datetime sorted plot xticks w)) = 0)).
Proof.
  intros dir d m. subst dir d m. split_and!.
  - intros Hfiles. pose proof (load_not_found w Hfiles) as Hload.
    rewrite (main_after_exit w None) by (by rewrite Hload).
    by rewrite Hload.
  - intros class msg Hfiles. pose proof (load_unreadable w class msg Hfiles) as Hload.
    rewrite (main_after_exit w None) by (by rewrite Hload).
    by rewrite Hload.
  - destruct (load_outcome w) as [Htables|Hexit]; [by left|right].
    rewrite (main_after_exit w None Hexit). done.
Qed.
End Loading.

Lemma load_failure_stops_witness :
  outcome (main Instances.iso_to_datetime Instances.sorted_values
                Instances.draw Instances.number_ticks Instances.missing_world)
    = SystemExit None.
Proof.
  rewrite (proj1 (load_failure_stops Instances.iso_to_datetime Instances.sorted_values
                                     Instances.draw Instances.number_ticks
                    Instances.missing_world)).
  - reflexivity.
  - left. reflexivity.
Defined.

(** C8 as stated fails. With neither file in place the run ends with status
    0, not with a non-zero one; and with a deliveries file that does not
    parse and no matches file, the matches file is absent and yet the run
    never writes the current working directory. *)
Lemma load_failure_status_is_zero :
  deliveries_files Instances.missing_world (deliveries_path "/srv/ipl") = Absent
  ∧ ¬ (exit_status
         (outcome (main Instances.iso_to_datetime Instances.sorted_values
                        Instances.draw Instances.number_ticks
                     Instances.missing_world)) ≠ 0)
  ∧ matches_files Instances.garbled_world (matches_path "/srv/ipl") = Absent
  ∧ Print "(Your current working directory is: /home/user)"
      ∉ output (main Instances.iso_to_datetime Instances.sorted_values
                     Instances.draw Instances.number_ticks
                  Instances.garbled_world).
Proof.
  split_and!; [reflexivity| |reflexivity|].
  - intros H. by apply H.
  - intros H. vm_compute in H.
    repeat (apply elem_of_cons in H as [H|H]; [discriminate H|]).
    by apply elem_of_nil in H.
Qed.

(** * Step 10 without a season column *)

Section Analysis.
Context (sorted : column → result column).
Context (plot : chart → result unit).
Context (xticks : column → result unit).

(** X18. Taken alone, step 10 skips itself on a table without a season column:
    it writes its reason and ends normally. *)
Lemma step10_without_season (matches_df : DataFrame) (deliveries_df : list delivery) :
  matches_df !! "season" = None →
  step10 sorted plot xticks matches_df deliveries_df
    = Run [Print "Plotting: Average Total Runs per Match Across Seasons...";
           Print "Could not perform average score per season analysis ('season' column not found in matches_df)."]
          (Finished tt).
Proof.
  intros Hs. unfold step10. rewrite Hs.
  rewrite bool_decide_false by (by intros [? ?]). reflexivity.
Qed.

(** X17. Step 1 reads the season column with no test: on such a table the
    analysis ends there with [KeyError], and step 10 is never reached. *)
Lemma analysis_without_season (matches_df : DataFrame) (deliveries_df : list delivery) :
  matches_df !! "season" = None →
  analysis sorted plot xticks matches_df deliveries_df
    = Run [Print (nl +:+ rule48);
           Print "Phase 3: Performing Analysis and Generating Visualizations...";
           Print rule48;
           Print (nl +:+ "--- Analyzing Basic Match Statistics ---");
           Print "Plotting: Number of Matches Per Season..."]
          (Uncaught (KeyError "season")).
Proof.
  intros Hs. unfold analysis, step1, getitem. rewrite Hs. reflexivity.
Qed.
End Analysis.

(** C7, at a failing input. A match table with neither a date nor a season
    column goes through preprocessing with a warning; then step 1 raises
    [KeyError: 'season'], nobody catches it, and the run ends with status 1:
    step 10 is not reached, its reason is never written, and neither is the
    summary. *)
Theorem run_without_season_aborts :
  ∃ matches_df,
    outcome (preprocess Instances.iso_to_datetime Instances.unseasoned_matches)
      = Finished matches_df
    ∧ matches_df !! "season" = None
    ∧ outcome (main Instances.iso_to_datetime Instances.sorted_values
                    Instances.draw Instances.number_ticks
                 Instances.unseasoned_world)
        = Uncaught (KeyError "season")
    ∧ last (output (main Instances.iso_to_datetime Instances.sorted_values
                         Instances.draw Instances.number_ticks
                      Instances.unseasoned_world))
        = Some (Print "Plotting: Number of Matches Per Season...")
    ∧ Print "Could not perform average score per season analysis ('season' column not found in matches_df)."
        ∉ output (main Instances.iso_to_datetime Instances.sorted_values
                       Instances.draw Instances.number_ticks
                    Instances.unseasoned_world).
Proof.
  eexists. split_and!.
  - vm_compute. reflexivity.
  - reflexivity.
  - vm_compute. reflexivity.
  - vm_compute. reflexivity.
  - intros H. vm_compute in H.
    repeat (apply elem_of_cons in H as [H|H]; [discriminate H|]).
    by apply elem_of_nil in H.
Qed.

(** * Step 10: average total runs per match across seasons *)

Section Exchange.
Context {A B : Type}.

Lemma bind_nil_const (l : list A) : l ≫= (λ _, @nil B) = [].
Proof. induction l; csimpl; auto. Qed.

Lemma bind_app_Permutation (g h : A → list B) (l : list A) :
  l ≫= (λ x, g x ++ h x)%list ≡ₚ ((l ≫= g) ++ (l ≫= h))%list.
Proof.
  induction l as [|x l IH]; csimpl; [done|].
  rewrite IH, <- !(assoc_L (++)). f_equiv.
  rewrite !(assoc_L (++)). f_equiv. apply Permutation_app_comm.
Qed.

Lemma omap_cons_app (f : A → option B) (x : A) (l : list A) :
  omap f (x :: l) = (option_list (f x) ++ omap f l)%list.
Proof. csimpl. by destruct (f x). Qed.
End Exchange.

(** The one entry of a key among distinct keys. *)
Lemma bind_select `{EqDecision K} {B} {runs : K → B} (P : Prop) `{Decision P}
    (ks : list K) (k0 : K) :
  NoDup ks →
  ks ≫= (λ k, option_list (if decide (k0 = k ∧ P) then Some (runs k) else None))
  = option_list (if decide (P ∧ k0 ∈ ks) then Some (runs k0) else None).
Proof.
  induction ks as [|k ks IH]; intros Hnd; csimpl.
  - rewrite decide_False; [done|]. rewrite elem_of_nil. tauto.
  - apply NoDup_cons in Hnd as [Hk Hnd]. rewrite (IH Hnd).
    destruct (decide (k0 = k ∧ P)) as [[-> HP]|Hno]; simpl.
    + rewrite decide_False by tauto.
      rewrite decide_True; [done|]. split; [done|]. apply elem_of_cons; by left.
    + destruct (decide (P ∧ k0 ∈ ks)) as [[HP Hin]|Hno'].
      * rewrite decide_True; [done|]. split; [done|]. apply elem_of_cons; by right.
      * rewrite decide_False; [done|].
        rewrite elem_of_cons. intros [HP [->|Hin]]; tauto.
Qed.

Lemma omap_Some_fmap {A B} (f : A → B) (l : list A) :
  omap (λ x, Some (f x)) l = f <$> l.
Proof. induction l; csimpl; by f_equal. Qed.

(** The left table of the merge: every match id of the delivery table, once,
    with the runs of that match. *)
Lemma total_runs_per_match_tabulate (deliveries_df : list delivery) :
  total_runs_per_match deliveries_df
  = (λ m, (m, wrap64 (runs_of_match deliveries_df m)))
      <$> sort_by Z.ltb (unique (match_id <$> deliveries_df)).
Proof.
  unfold total_runs_per_match, agg, groupby.
  rewrite omap_Some_fmap, <- list_fmap_compose.
  apply list_fmap_ext. intros _ m _. simpl. unfold runs_of_match, sum.
  do 4 f_equal. apply list_filter_iff.
  intros r. split; [by intros [= ->]|by intros ->].
Qed.

Lemma match_ids_NoDup (deliveries_df : list delivery) :
  NoDup (sort_by Z.ltb (unique (match_id <$> deliveries_df))).
Proof. rewrite sort_by_Permutation. apply NoDup_unique. Qed.

Lemma elem_of_match_ids (deliveries_df : list delivery) (m : Z) :
  m ∈ sort_by Z.ltb (unique (match_id <$> deliveries_df))
  ↔ m ∈ match_id <$> deliveries_df.
Proof. by rewrite sort_by_Permutation, elem_of_unique. Qed.

(** The merged rows of one match that are of a season: one for each row of
    the right table with the match's id and that season. *)
Lemma merged_scores_of_match (right : list (value * value)) (m t : Z) (s : value) :
  s ≠ VNull →
  m_total_runs
    <$> filter (λ r, season_key r = Some s)
          match filter (λ r, r.1 = VInt m) right with
          | [] => [Merged m t VNull]
          | rs => (λ r, Merged m t r.2) <$> rs
          end
  = right ≫= λ r, option_list (if decide (r.1 = VInt m ∧ r.2 = s) then Some t else None).
Proof.
  intros Hs.
  assert (∀ R : list (value * value),
            m_total_runs
              <$> filter (λ r, season_key r = Some s)
                    ((λ r, Merged m t r.2) <$> filter (λ r, r.1 = VInt m) R)
            = R ≫= λ r, option_list (if decide (r.1 = VInt m ∧ r.2 = s)
                                     then Some t else None)) as Hgen.
  { induction R as [|r R IH]; csimpl; [done|].
    destruct (decide (r.1 = VInt m)) as [Hm|Hm].
    - rewrite filter_cons_True by done. csimpl.
      destruct (decide (r.2 = s)) as [Hrs|Hrs].
      + rewrite filter_cons_True.
        * rewrite decide_True by done. csimpl. by rewrite IH.
        * unfold season_key. simpl. rewrite Hrs. by destruct s.
      + rewrite filter_cons_False.
        * rewrite decide_False by tauto. by rewrite IH.
        * unfold season_key. simpl. destruct (isnull r.2); congruence.
    - rewrite filter_cons_False by done.
      rewrite decide_False by tauto. by rewrite IH. }
  rewrite <- Hgen.
  destruct (filter (λ r, r.1 = VInt m) right) as [|r rs]; [|done].
  rewrite filter_cons_False; [done|]. unfold season_key. by simpl.
Qed.

Lemma scores_of_bind {A} (P : merged_row → Prop) `{∀ r, Decision (P r)}
    (g : A → list merged_row) (l : list A) :
  m_total_runs <$> filter P (l ≫= g) = l ≫= λ x, m_total_runs <$> filter P (g x).
Proof.
  induction l as [|x l IH]; csimpl; [done|].
  by rewrite filter_app, fmap_app, IH.
Qed.

(** Listing the scores match by match or row by row of the match table gives
    the same scores, up to their order. *)
Lemma scores_exchange (f : Z → Z) (ks : list Z) (right : list (value * value))
    (s : value) :
  NoDup ks →
  ks ≫= (λ m, right ≫= λ r,
           option_list (if decide (r.1 = VInt m ∧ r.2 = s) then Some (f m) else None))
  ≡ₚ omap (λ r, match r.1 with
                | VInt m => if decide (r.2 = s ∧ m ∈ ks) then Some (f m) else None
                | _ => None
                end) right.
Proof.
  intros Hnd. induction right as [|r right IH].
  - csimpl. by rewrite bind_nil_const.
  - rewrite omap_cons_app. csimpl.
    rewrite bind_app_Permutation, IH. f_equiv.
    apply reflexive_eq. destruct (r.1) as [|m0|?|?] eqn:Hr1.
    + rewrite (list_bind_ext _ (λ _, []) ks ks); [apply bind_nil_const| |done].
      intros m. rewrite decide_False; [done|]. by intros [? _].
    + rewrite <- (bind_select (runs := f) (r.2 = s) ks m0 Hnd).
      apply list_bind_ext; [|done]. intros m.
      destruct (decide (VInt m0 = VInt m ∧ r.2 = s)) as [[[= ->] ?]|Hno].
      * by rewrite decide_True.
      * rewrite decide_False; [done|]. intros [-> ?]. by apply Hno.
    + rewrite (list_bind_ext _ (λ _, []) ks ks); [apply bind_nil_const| |done].
      intros m. rewrite decide_False; [done|]. by intros [? _].
    + rewrite (list_bind_ext _ (λ _, []) ks ks); [apply bind_nil_const| |done].
      intros m. rewrite decide_False; [done|]. by intros [? _].
Qed.

Lemma omap_ext_eq {A B} (f g : A → option B) (l : list A) :
  (∀ x, f x = g x) → omap f l = omap g l.
Proof. intros Hfg. induction l as [|x l IH]; csimpl; [done|]. by rewrite Hfg, IH. Qed.

Lemma runs_of_match_present (deliveries_df : list delivery) (m : Z) :
  runs_of_match deliveries_df m ≠ 0 → m ∈ match_id <$> deliveries_df.
Proof.
  unfold runs_of_match. intros Hne.
  destruct (filter (λ r, match_id r = m) deliveries_df) as [|r g] eqn:Hf; [done|].
  assert (r ∈ filter (λ r, match_id r = m) deliveries_df) as Hr
    by (rewrite Hf; apply elem_of_cons; by left).
  apply list_elem_of_filter in Hr as [<- Hr]. by apply list_elem_of_fmap_2.
Qed.

Lemma fmap_omap_value {A B C} (f : B → C) (g : A → option B) (l : list A) :
  f <$> omap g l = omap (λ x, f <$> g x) l.
Proof.
  induction l as [|x l IH]; csimpl; [done|].
  destruct (g x); csimpl; by rewrite IH.
Qed.

(** The scores that step 10 averages for a season are, up to their order,
    the int64 per-match sums of the matches of that season. *)
Lemma merged_scores_Permutation (deliveries_df : list delivery)
    (right : list (value * value)) (s : value) :
  s ≠ VNull →
  m_total_runs
    <$> filter (λ r, season_key r = Some s)
          (total_runs_per_match deliveries_df ≫= λ l,
             match filter (λ r, r.1 = VInt l.1) right with
             | [] => [Merged l.1 l.2 VNull]
             | rs => (λ r, Merged l.1 l.2 r.2) <$> rs
             end)
  ≡ₚ wrap64 <$> season_scores deliveries_df right s.
Proof.
  intros Hs. rewrite scores_of_bind.
  erewrite list_bind_ext;
    [|intros l; by apply (merged_scores_of_match right l.1 l.2 s)|done].
  rewrite total_runs_per_match_tabulate, list_fmap_bind.
  etransitivity;
    [apply (scores_exchange (λ m, wrap64 (runs_of_match deliveries_df m)) _ right s),
       match_ids_NoDup|].
  unfold season_scores. rewrite fmap_omap_value. apply reflexive_eq, omap_ext_eq.
  intros r. destruct (r.1) as [|m| |]; try done.
  destruct (decide (r.2 = s ∧ m ∈ match_id <$> deliveries_df)) as [[? Hin]|Hno].
  - rewrite decide_True; [done|]. split; [done|]. by apply elem_of_match_ids.
  - rewrite decide_False; [done|]. intros [? Hin]. apply Hno. split; [done|].
    by apply elem_of_match_ids.
Qed.

(** C1. For every match table with match_id and season columns on which the
    merge of step 10 succeeds, and every non-null season: the scores step 10
    averages for the season are, up to their order, the int64 sums of the
    total runs of the deliveries of each row of the match table that is of
    the season and has deliveries, and the value of the season is their
    float64 mean; a season without such a row gets no value. Whenever those
    sums add up, in absolute value, to no more than 2^53 (and there are no
    more rows than that), the value is the sum of the per-match sums over
    their number, rounded to the nearest float64. In particular, for the
    match table with match ids 1 and 2, both of season 2020, and a delivery
    table whose runs sum to 10 for match 1 and to 6 for match 2, the value
    for 2020 is exactly 8. *)
Theorem avg_score_per_season_is_mean (matches_df : DataFrame)
    (deliveries_df : list delivery) (match_ids seasons : column)
    (merged : list merged_row) (s : value) :
  matches_df !! "match_id" = Some match_ids →
  matches_df !! "season" = Some seasons →
  match_runs_season matches_df deliveries_df = Ok merged →
  s ≠ VNull →
  (total (Z.abs <$> season_scores deliveries_df (zip match_ids seasons) s) ≤ 2 ^ 53 →
   Z.of_nat (length (season_scores deliveries_df (zip match_ids seasons) s)) ≤ 2 ^ 53 →
   loc (avg_score_per_season merged) s
     = mean_if_any (season_scores deliveries_df (zip match_ids seasons) s))
  ∧ (m_total_runs <$> filter (λ r, season_key r = Some s) merged
       ≡ₚ wrap64 <$> season_scores deliveries_df (zip match_ids seasons) s
     ∧ loc (avg_score_per_season merged) s
       = match m_total_runs <$> filter (λ r, season_key r = Some s) merged with
         | [] => None
         | scores => Some (mean scores)
         end)
  ∧ (match_ids = [VInt 1; VInt 2] → seasons = [VInt 2020; VInt 2020] →
     runs_of_match deliveries_df 1 = 10 → runs_of_match deliveries_df 2 = 6 →
     loc (avg_score_per_season merged) (VInt 2020) = Some (Fin 8)).
Proof.
  intros Hid Hseason Hmerge Hs.
  unfold match_runs_season, getitems in Hmerge.
  rewrite Hid, Hseason in Hmerge. simpl in Hmerge. unfold merge_left in Hmerge.
  destruct (forallb _ (zip match_ids seasons)); [|done].
  injection Hmerge as <-.
  set (merged := total_runs_per_match deliveries_df ≫= λ l,
                   match filter (λ r, r.1 = VInt l.1) (zip match_ids seasons) with
                   | [] => [Merged l.1 l.2 VNull]
                   | rs => (λ r, Merged l.1 l.2 r.2) <$> rs
                   end).
  assert (∀ s', loc (avg_score_per_season merged) s'
                = match m_total_runs <$> filter (λ r, season_key r = Some s') merged with
                  | [] => None
                  | scores => Some (mean scores)
                  end) as Hloc.
  { intros s'. unfold avg_score_per_season. rewrite loc_agg, loc_groupby.
    by destruct (filter _ merged). }
  assert (∀ s', s' ≠ VNull →
            total (Z.abs <$> season_scores deliveries_df (zip match_ids seasons) s')
              ≤ 2 ^ 53 →
            Z.of_nat (length (season_scores deliveries_df (zip match_ids seasons) s'))
              ≤ 2 ^ 53 →
            loc (avg_score_per_season merged) s'
            = mean_if_any (season_scores deliveries_df (zip match_ids seasons) s'))
    as Hgen.
  { intros s' Hs' Hsum Hlen. rewrite Hloc.
    pose proof (merged_scores_Permutation deliveries_df (zip match_ids seasons) s' Hs')
      as Hperm.
    fold merged in Hperm. rewrite (fmap_wrap64_small _ Hsum) in Hperm.
    rewrite <- (mean_if_any_Permutation _ _ Hperm).
    apply mean_if_any_small.
    - by rewrite (total_Permutation _ _ (fmap_Permutation Z.abs _ _ Hperm)).
    - by rewrite (Permutation_length Hperm). }
  split_and!.
  - by apply Hgen.
  - by apply merged_scores_Permutation.
  - apply Hloc.
  - intros -> -> H1 H2.
    assert (season_scores deliveries_df (zip [VInt 1; VInt 2] [VInt 2020; VInt 2020])
              (VInt 2020) = [10; 6]) as Hscores.
    { unfold season_scores. simpl.
      rewrite !decide_True, H1, H2; [reflexivity|split; [done|]..];
        apply runs_of_match_present; lia. }
    rewrite Hgen, Hscores; [vm_compute; reflexivity|done|..];
      rewrite Hscores; vm_compute; discriminate.
Qed.

Lemma avg_score_per_season_is_mean_witness :
  outcome (preprocess Instances.iso_to_datetime Instances.scenario_matches)
    = Finished Instances.scenario_preprocessed
  ∧ match_runs_season Instances.scenario_preprocessed Instances.scenario_deliveries
    = Ok Instances.scenario_merged
  ∧ loc (avg_score_per_season Instances.scenario_merged) (VInt 2020) = Some (Fin 8)
  ∧ step10 Instances.sorted_values Instances.draw Instances.number_ticks
      Instances.scenario_preprocessed Instances.scenario_deliveries
    = Run [Print "Plotting: Average Total Runs per Match Across Seasons...";
           Show (ScorePerSeason [(VInt 2020, Fin 8)])]
          (Finished tt).
Proof.
  split; [vm_compute; reflexivity|].
  split; [vm_compute; reflexivity|].
  split; [|vm_compute; reflexivity].
  refine (proj2 (proj2 (avg_score_per_season_is_mean Instances.scenario_preprocessed
                          Instances.scenario_deliveries
                          [VInt 1; VInt 2] [VInt 2020; VInt 2020]
                          Instances.scenario_merged (VInt 2020) _ _ _ _)) _ _ _ _).
  - reflexivity.
  - reflexivity.
  - vm_compute. reflexivity.
  - discriminate.
  - reflexivity.
  - reflexivity.
  - reflexivity.
  - reflexivity.
Defined.

(** * Order and partition facts of the series operations *)

Section SortFacts.
Context {A : Type} (before : A → A → bool) (rank : A → Z).
Context (before_rank : ∀ a b, before a b = true ↔ rank a < rank b).

Lemma insert_sorted_sorted (x : A) (l : list A) :
  StronglySorted (λ a b, rank a ≤ rank b) l →
  StronglySorted (λ a b, rank a ≤ rank b) (insert_sorted before x l).
Proof.
  induction 1 as [|q l Hl IH Hq]; simpl.
  - repeat constructor.
  - destruct (before q x) eqn:Hb.
    + apply before_rank in Hb. constructor; [done|].
      rewrite Forall_forall. intros y Hy.
      rewrite insert_sorted_Permutation in Hy.
      apply elem_of_cons in Hy as [->|Hy]; [lia|].
      rewrite Forall_forall in Hq. by apply Hq.
    + assert (rank x ≤ rank q) as Hxq.
      { destruct (decide (rank q < rank x)) as [Hlt|]; [|lia].
        apply before_rank in Hlt. congruence. }
      constructor; [by constructor|].
      constructor; [done|].
      rewrite Forall_forall in Hq |- *. intros y Hy. specialize (Hq y Hy). lia.
Qed.

Lemma sort_by_sorted (l : list A) :
  StronglySorted (λ a b, rank a ≤ rank b) (sort_by before l).
Proof.
  induction l as [|x l IH]; simpl; [constructor|].
  by apply insert_sorted_sorted.
Qed.

(** What [head(n)] keeps of a sorted series ranks no later than what it
    leaves out. *)
Lemma head_sort_by_first (n : nat) (l : list A) (x y : A) :
  x ∈ head n (sort_by before l) → y ∈ l → y ∉ head n (sort_by before l) →
  rank x ≤ rank y.
Proof.
  unfold head. intros Hx Hy Hny.
  pose proof (sort_by_sorted l) as Hs.
  rewrite <- (take_drop n (sort_by before l)) in Hs.
  apply (StronglySorted_app_1_elem_of _ _ _ x y Hs Hx).
  rewrite <- (sort_by_Permutation before l), <- (take_drop n (sort_by before l)) in Hy.
  apply elem_of_app in Hy as [Hy|Hy]; [done|done].
Qed.
End SortFacts.

Section PartitionFacts.
Context {R K : Type} `{EqDecision K}.

(** Rows split by key: the groups of distinct keys that cover the rows hold
    every row once. *)
Lemma group_partition (key : R → K) (keys : list K) (rows : list R) :
  NoDup keys → (∀ r, r ∈ rows → key r ∈ keys) →
  rows ≡ₚ keys ≫= (λ k, filter (λ r, key r = k) rows).
Proof.
  intros Hnd. induction rows as [|r rows IH]; intros Hcover.
  - erewrite list_bind_ext; [by rewrite bind_nil_const| |done]. done.
  - erewrite (list_bind_ext _
               (λ k, option_list (if decide (key r = k ∧ True) then Some r else None)
                     ++ filter (λ r, key r = k) rows)%list); [| |done].
    + rewrite bind_app_Permutation.
      rewrite (bind_select (runs := λ _, r) True keys (key r) Hnd).
      rewrite decide_True
        by (split; [done|]; apply Hcover, elem_of_cons; by left).
      simpl. f_equiv. apply IH. intros r' Hr'. apply Hcover, elem_of_cons. by right.
    + intros k. destruct (decide (key r = k)) as [Hk|Hk].
      * rewrite filter_cons_True by done. by rewrite decide_True.
      * rewrite filter_cons_False by done. rewrite decide_False; [done|]. tauto.
Qed.

Lemma keys_of_groupby (before : K → K → bool) (key : R → option K) (rows : list R) :
  (groupby before key rows).*1 = sort_by before (unique (omap key rows)).
Proof. unfold groupby. apply fst_tabulate. Qed.
End PartitionFacts.

Lemma total_bind {A} (f : A → list Z) (l : list A) :
  total (l ≫= f) = total ((λ x, total (f x)) <$> l).
Proof.
  induction l as [|x l IH]; csimpl; [done|].
  by rewrite total_app, IH.
Qed.

Lemma length_bind {A B} (f : A → list B) (l : list A) :
  length (l ≫= f) = sum_list ((λ x, length (f x)) <$> l).
Proof.
  induction l as [|x l IH]; csimpl; [done|].
  by rewrite length_app, IH.
Qed.

Lemma sum_list_Permutation (l k : list nat) : l ≡ₚ k → sum_list l = sum_list k.
Proof. induction 1; simpl; lia. Qed.

Lemma sorted_weaken {A} (R1 R2 : relation A) (l : list A) :
  (∀ x y, R1 x y → R2 x y) → StronglySorted R1 l → StronglySorted R2 l.
Proof.
  intros HR. induction 1 as [|x l Hl IH Hx]; constructor; [done|].
  eapply Forall_impl; [done|]. intros y. apply HR.
Qed.

Lemma NoDup_head_keys {K V} (n : nat) (s : list (K * V)) :
  NoDup (s.*1) → NoDup ((head n s).*1).
Proof.
  intros Hnd. unfold head. rewrite <- (take_drop n s), fmap_app in Hnd.
  by apply NoDup_app in Hnd as [? _].
Qed.

Lemma fst_map_values {K V W} (f : V → W) (s : list (K * V)) :
  (prod_map id f <$> s).*1 = s.*1.
Proof.
  rewrite <- list_fmap_compose. apply list_fmap_ext. by intros _ [? ?] _.
Qed.

Lemma fmap_of_bind {A B C} (f : B → C) (g : A → list B) (l : list A) :
  f <$> (l ≫= g) = l ≫= (λ x, f <$> g x).
Proof.
  induction l as [|x l IH]; csimpl; [done|]. by rewrite fmap_app, IH.
Qed.

Lemma strictly_sorted {A} (rank : A → Z) (l : list A) :
  StronglySorted (λ a b, rank a ≤ rank b) l → NoDup (rank <$> l) →
  StronglySorted (λ a b, rank a < rank b) l.
Proof.
  induction 1 as [|x l Hl IH Hx]; csimpl; intros Hnd; [constructor|].
  apply NoDup_cons in Hnd as [Hnin Hnd]. constructor; [by apply IH|].
  rewrite Forall_forall in Hx |- *. intros y Hy. specialize (Hx y Hy).
  destruct (decide (rank x = rank y)) as [Heq|]; [|lia].
  destruct Hnin. rewrite Heq. by apply list_elem_of_fmap_2.
Qed.

Lemma length_filter_fmap {A B} `{EqDecision B} (f : A → B) (b : B) (l : list A) :
  length (filter (λ v, v = b) (f <$> l)) = length (filter (λ r, f r = b) l).
Proof.
  induction l as [|x l IH]; csimpl; [done|].
  destruct (decide (f x = b)).
  - rewrite !filter_cons_True by done. simpl. by rewrite IH.
  - by rewrite !filter_cons_False.
Qed.

(** The counts of the distinct values add up to the number of values. *)
Lemma counts_desc_total {K} `{EqDecision K} (present : list K) :
  sum_list ((counts_desc present).*2) = length present.
Proof.
  unfold counts_desc, sort_values_desc.
  rewrite (sum_list_Permutation _ _
             (fmap_Permutation snd _ _ (sort_by_Permutation _ _))).
  rewrite <- list_fmap_compose.
  rewrite (Permutation_length
             (group_partition id (unique present) present (NoDup_unique _)
                ltac:(intros r Hr; by apply elem_of_unique))).
  by rewrite length_bind.
Qed.

(** * Step 9: balls bowled per over number *)

(** X1. [balls_per_over] lists every over number of the delivery table once, in
    ascending order, with the number of deliveries of that over; an over
    number without deliveries has no entry; and the counts add up to the
    number of deliveries. *)
Theorem balls_per_over_counts (deliveries_df : list delivery) (o : Z) :
  loc (balls_per_over deliveries_df) o
    = (if decide (o ∈ over <$> deliveries_df)
       then Some (balls_of_over deliveries_df o) else None)
  ∧ StronglySorted (λ a b, a.1 < b.1) (balls_per_over deliveries_df)
  ∧ Forall (λ p, (0 < p.2)%nat) (balls_per_over deliveries_df)
  ∧ sum_list ((balls_per_over deliveries_df).*2) = length deliveries_df.
Proof.
  assert (balls_per_over deliveries_df ≡ₚ counts_desc (over <$> deliveries_df)) as Hp
    by apply sort_by_Permutation.
  assert (NoDup ((balls_per_over deliveries_df).*1)) as Hnd
    by (rewrite Hp; apply NoDup_counts_desc).
  assert (∀ o', loc (balls_per_over deliveries_df) o'
                = if decide (o' ∈ over <$> deliveries_df)
                  then Some (balls_of_over deliveries_df o') else None) as Hloc.
  { intros o'. rewrite (loc_Permutation _ _ o' Hnd Hp), loc_counts_desc.
    unfold balls_of_over. by rewrite length_filter_fmap. }
  split_and!.
  - apply Hloc.
  - apply (strictly_sorted (λ p, p.1)); [|done].
    apply (sort_by_sorted _ (λ p : Z * nat, p.1)).
    intros a b. apply Z.ltb_lt.
  - apply Forall_forall. intros [o' n] Hin. simpl.
    apply (loc_elem_of _ _ _ Hnd) in Hin. rewrite Hloc in Hin.
    case_decide as Ho; [|done]. injection Hin as <-.
    apply list_elem_of_fmap in Ho as (r & -> & Hr). unfold balls_of_over.
    assert (r ∈ filter (λ r', over r' = over r) deliveries_df) as Hf
      by (by apply list_elem_of_filter).
    destruct (filter _ deliveries_df); [by apply elem_of_nil in Hf|simpl; lia].
  - rewrite (sum_list_Permutation _ _ (fmap_Permutation snd _ _ Hp)).
    by rewrite counts_desc_total, length_fmap.
Qed.

(** * Step 5: top run scorers *)

Lemma loc_batsman_totals (deliveries_df : list delivery) (name : string) :
  loc (agg (λ g, sum (batsman_runs <$> g))
         (groupby String.ltb (λ r, Some (batsman r)) deliveries_df)) name
  = if decide (name ∈ batsman <$> deliveries_df)
    then Some (wrap64 (runs_of_batsman deliveries_df name)) else None.
Proof.
  rewrite loc_agg, loc_groupby. unfold runs_of_batsman, sum.
  rewrite (list_filter_iff (λ r, Some (batsman r) = Some name) (λ r, batsman r = name))
    by (intros ?; split; [by intros [= ->]|by intros ->]).
  destruct (decide (name ∈ batsman <$> deliveries_df)) as [Hin|Hnin].
  - apply list_elem_of_fmap in Hin as (r & -> & Hr).
    assert (r ∈ filter (λ r', batsman r' = batsman r) deliveries_df) as Hf
      by (by apply list_elem_of_filter).
    destruct (filter _ deliveries_df); [by apply elem_of_nil in Hf|done].
  - destruct (filter (λ r, batsman r = name) deliveries_df) as [|r g] eqn:Hf; [done|].
    destruct Hnin.
    assert (r ∈ filter (λ r, batsman r = name) deliveries_df) as Hr
      by (rewrite Hf; apply elem_of_cons; by left).
    apply list_elem_of_filter in Hr as [<- Hr]. by apply list_elem_of_fmap_2.
Qed.

(** X2. [top_batsmen] holds at most fifteen batsmen, each once, with the
    int64 sum of the batsman runs of the batsman's deliveries (the sum
    itself when it fits in 64 bits, and -2^63 when the runs add up to 2^63),
    highest total first; and every batsman of the table who is left out has
    a total no higher than any of the fifteen. *)
Theorem top_batsmen_are_highest (deliveries_df : list delivery) :
  (length (top_batsmen deliveries_df) ≤ 15)%nat
  ∧ NoDup ((top_batsmen deliveries_df).*1)
  ∧ Forall (λ p, p.1 ∈ batsman <$> deliveries_df
                 ∧ p.2 = wrap64 (runs_of_batsman deliveries_df p.1)
                 ∧ (- 2 ^ 63 ≤ runs_of_batsman deliveries_df p.1 < 2 ^ 63 →
                    p.2 = runs_of_batsman deliveries_df p.1)
                 ∧ (runs_of_batsman deliveries_df p.1 = 2 ^ 63 → p.2 = - 2 ^ 63))
           (top_batsmen deliveries_df)
  ∧ StronglySorted (λ a b, b.2 ≤ a.2) (top_batsmen deliveries_df)
  ∧ ∀ p name,
      p ∈ top_batsmen deliveries_df →
      name ∈ batsman <$> deliveries_df →
      name ∉ (top_batsmen deliveries_df).*1 →
      wrap64 (runs_of_batsman deliveries_df name) ≤ p.2.
Proof.
  set (totals := agg (λ g, sum (batsman_runs <$> g))
                   (groupby String.ltb (λ r, Some (batsman r)) deliveries_df)).
  assert (NoDup (totals.*1)) as Hnd
    by (subst totals; rewrite fst_agg; apply NoDup_groupby_keys).
  assert (∀ a b : string * Z, (b.2 <? a.2) = true ↔ - a.2 < - b.2) as Hrank
    by (intros a b; rewrite Z.ltb_lt; lia).
  assert (StronglySorted (λ a b : string * Z, b.2 ≤ a.2)
            (sort_values_desc Z.ltb totals)) as Hsorted.
  { eapply sorted_weaken;
      [|apply (sort_by_sorted _ (λ p : string * Z, - p.2) Hrank)].
    intros a b. simpl. lia. }
  assert (∀ p, p ∈ totals →
               p.1 ∈ batsman <$> deliveries_df
               ∧ p.2 = wrap64 (runs_of_batsman deliveries_df p.1)) as Htot.
  { intros [name t] Hin. simpl. apply (loc_elem_of _ _ _ Hnd) in Hin.
    subst totals. rewrite loc_batsman_totals in Hin.
    case_decide; [|done]. by injection Hin as <-. }
  fold totals in Hsorted. unfold top_batsmen. fold totals.
  split_and!.
  - unfold head. rewrite length_take. lia.
  - apply NoDup_head_keys. unfold sort_values_desc.
    by rewrite sort_by_Permutation.
  - apply Forall_forall. intros p Hp.
    apply elem_of_head in Hp. unfold sort_values_desc in Hp.
    rewrite sort_by_Permutation in Hp. destruct (Htot p Hp) as [Hname Hruns].
    split_and!; [done..| |].
    + intros Hfit. by rewrite Hruns, wrap64_small.
    + intros Hbig. by rewrite Hruns, Hbig.
  - unfold head. rewrite <- (take_drop 15 (sort_values_desc Z.ltb totals)) in Hsorted.
    by apply StronglySorted_app_1_l in Hsorted.
  - intros p name Hp Hname Hout.
    assert ((name, wrap64 (runs_of_batsman deliveries_df name)) ∈ totals) as Hin.
    { apply loc_Some_elem_of. subst totals. rewrite loc_batsman_totals.
      by rewrite decide_True. }
    pose proof (head_sort_by_first _ (λ p : string * Z, - p.2) Hrank 15 totals
                  p (name, wrap64 (runs_of_batsman deliveries_df name)) Hp Hin) as Hle.
    simpl in Hle. cut (- p.2 ≤ - wrap64 (runs_of_batsman deliveries_df name)); [lia|].
    apply Hle. intros Hin'. apply Hout.
    apply list_elem_of_fmap.
    by exists (name, wrap64 (runs_of_batsman deliveries_df name)).
Qed.

(** * Step 7: the order of the top wicket takers *)

(** X3. [top_bowlers] lists its bowlers once each, most wickets first, and no
    bowler left out of it has more wickets than one it holds. *)
Theorem top_bowlers_are_highest (deliveries_df : list delivery) :
  (length (top_bowlers deliveries_df) ≤ 15)%nat
  ∧ NoDup ((top_bowlers deliveries_df).*1)
  ∧ StronglySorted (λ a b, (b.2 ≤ a.2)%nat) (top_bowlers deliveries_df)
  ∧ Forall (λ p, (0 < p.2)%nat) (top_bowlers deliveries_df)
  ∧ ∀ p name,
      p ∈ top_bowlers deliveries_df →
      name ∉ (top_bowlers deliveries_df).*1 →
      (wickets_of deliveries_df name ≤ p.2)%nat.
Proof.
  set (counts := wickets_by_bowler deliveries_df).
  assert (NoDup (counts.*1)) as Hnd.
  { subst counts. unfold wickets_by_bowler. rewrite fst_agg. apply NoDup_groupby_keys. }
  assert (∀ a b : string * nat,
            (b.2 <? a.2)%nat = true ↔ - Z.of_nat a.2 < - Z.of_nat b.2) as Hrank
    by (intros a b; rewrite Nat.ltb_lt; lia).
  assert (StronglySorted (λ a b : string * nat, (b.2 ≤ a.2)%nat)
            (sort_values_desc Nat.ltb counts)) as Hsorted.
  { eapply sorted_weaken;
      [|apply (sort_by_sorted _ (λ p : string * nat, - Z.of_nat p.2) Hrank)].
    intros a b. simpl. lia. }
  assert (∀ p, p ∈ counts → p.2 = wickets_of deliveries_df p.1 ∧ (0 < p.2)%nat) as Hcount.
  { intros [name n] Hin. simpl. apply (loc_elem_of _ _ _ Hnd) in Hin.
    subst counts. rewrite loc_wickets_by_bowler in Hin.
    case_decide; [done|]. injection Hin as <-. split; [done|lia]. }
  unfold top_bowlers. fold counts. split_and!.
  - unfold head. rewrite length_take. lia.
  - apply NoDup_head_keys. unfold sort_values_desc.
    by rewrite sort_by_Permutation.
  - unfold head. rewrite <- (take_drop 15 (sort_values_desc Nat.ltb counts)) in Hsorted.
    by apply StronglySorted_app_1_l in Hsorted.
  - apply Forall_forall. intros p Hp. apply Hcount.
    apply elem_of_head in Hp. unfold sort_values_desc in Hp.
    by rewrite sort_by_Permutation in Hp.
  - intros p name Hp Hout.
    destruct (decide (wickets_of deliveries_df name = 0%nat)) as [->|Hpos]; [lia|].
    assert ((name, wickets_of deliveries_df name) ∈ counts) as Hin.
    { apply loc_Some_elem_of. subst counts. rewrite loc_wickets_by_bowler.
      by rewrite decide_False. }
    pose proof (head_sort_by_first _ (λ p : string * nat, - Z.of_nat p.2) Hrank 15 counts
                  p (name, wickets_of deliveries_df name) Hp Hin) as Hle.
    simpl in Hle. cut (- Z.of_nat p.2 ≤ - Z.of_nat (wickets_of deliveries_df name)); [lia|].
    apply Hle. intros Hin'. apply Hout.
    apply list_elem_of_fmap. by exists (name, wickets_of deliveries_df name).
Qed.

(** * Step 2: most frequent venues *)

(** X4. [top_venues] holds at most ten venues, none of them missing, each once
    with the number of matches played there, most frequent first; and no
    venue left out of it hosted more matches than one it holds. *)
Theorem top_venues_are_most_frequent (venue : column) :
  (length (top_venues venue) ≤ 10)%nat
  ∧ NoDup ((top_venues venue).*1)
  ∧ Forall (λ p, p.1 ≠ VNull ∧ p.2 = occurrences venue p.1 ∧ (0 < p.2)%nat)
           (top_venues venue)
  ∧ StronglySorted (λ a b, (b.2 ≤ a.2)%nat) (top_venues venue)
  ∧ ∀ p v,
      p ∈ top_venues venue → v ≠ VNull → v ∉ (top_venues venue).*1 →
      (occurrences venue v ≤ p.2)%nat.
Proof.
  assert (∀ a b : value * nat,
            (b.2 <? a.2)%nat = true ↔ - Z.of_nat a.2 < - Z.of_nat b.2) as Hrank
    by (intros a b; rewrite Nat.ltb_lt; lia).
  set (rows := (λ k, (k, length (filter (λ v, v = k) (filter (λ v, notnull v) venue))))
                 <$> unique (filter (λ v, notnull v) venue)).
  assert (value_counts venue = sort_by (λ q x, (x.2 <? q.2)%nat) rows) as Hvc by done.
  assert (NoDup ((value_counts venue).*1)) as Hnd by apply NoDup_counts_desc.
  assert (∀ p, p ∈ value_counts venue →
               p.1 ≠ VNull ∧ p.2 = occurrences venue p.1 ∧ (0 < p.2)%nat) as Hcount.
  { intros [k n] Hin. simpl. apply (loc_elem_of _ _ _ Hnd) in Hin.
    rewrite loc_value_counts in Hin. case_decide as Hd; [done|].
    injection Hin as <-. split_and!; [tauto|done|lia]. }
  unfold top_venues. split_and!.
  - unfold head. rewrite length_take. lia.
  - by apply NoDup_head_keys.
  - apply Forall_forall. intros p Hp. apply Hcount. by apply elem_of_head in Hp.
  - assert (StronglySorted (λ a b : value * nat, (b.2 ≤ a.2)%nat)
              (value_counts venue)) as Hsorted.
    { rewrite Hvc. eapply sorted_weaken;
        [|apply (sort_by_sorted _ (λ p : value * nat, - Z.of_nat p.2) Hrank)].
      intros a b. simpl. lia. }
    unfold head. rewrite <- (take_drop 10 (value_counts venue)) in Hsorted.
    by apply StronglySorted_app_1_l in Hsorted.
  - intros p v Hp Hv Hout.
    destruct (decide (occurrences venue v = 0%nat)) as [->|Hpos]; [lia|].
    assert ((v, occurrences venue v) ∈ value_counts venue) as Hin.
    { apply loc_Some_elem_of. rewrite loc_value_counts.
      rewrite decide_False; [done|]. tauto. }
    rewrite Hvc in Hp, Hin. rewrite sort_by_Permutation in Hin.
    pose proof (head_sort_by_first _ (λ p : value * nat, - Z.of_nat p.2) Hrank 10 rows
                  p (v, occurrences venue v) Hp Hin) as Hle.
    simpl in Hle. cut (- Z.of_nat p.2 ≤ - Z.of_nat (occurrences venue v)); [lia|].
    apply Hle. rewrite <- Hvc. intros Hin'. apply Hout.
    apply list_elem_of_fmap. by exists (v, occurrences venue v).
Qed.

(** * Step 8: the overs of the rate series *)

(** X5. [avg_runs_per_over] has one entry for every over number of the
    delivery table and no other, in ascending order of the over, and the
    entry of an over is never missing: it is the float64 rate of that
    over. *)
Theorem avg_runs_per_over_overs (deliveries_df : list delivery) (o : Z) :
  (o ∈ (avg_runs_per_over deliveries_df).*1 ↔ o ∈ over <$> deliveries_df)
  ∧ StronglySorted Z.lt ((avg_runs_per_over deliveries_df).*1)
  ∧ (is_Some (loc (avg_runs_per_over deliveries_df) o) ↔ o ∈ over <$> deliveries_df)
  ∧ length (avg_runs_per_over deliveries_df)
    = length (unique (over <$> deliveries_df)).
Proof.
  assert ((avg_runs_per_over deliveries_df).*1
          = sort_by Z.ltb (unique (over <$> deliveries_df))) as Hkeys.
  { unfold avg_runs_per_over.
    by rewrite fst_map_values, fst_agg, keys_of_groupby, omap_Some_fmap. }
  assert (o ∈ (avg_runs_per_over deliveries_df).*1 ↔ o ∈ over <$> deliveries_df)
    as Hin by (by rewrite Hkeys, sort_by_Permutation, elem_of_unique).
  split_and!.
  - done.
  - rewrite Hkeys.
    pose proof (strictly_sorted id (sort_by Z.ltb (unique (over <$> deliveries_df)))
                  (sort_by_sorted Z.ltb id Z.ltb_lt _)) as Hs.
    rewrite list_fmap_id in Hs. apply Hs.
    rewrite sort_by_Permutation. apply NoDup_unique.
  - rewrite <- Hin, <- not_eq_None_Some, loc_None.
    destruct (decide (o ∈ (avg_runs_per_over deliveries_df).*1)); tauto.
  - rewrite <- (length_fmap fst), Hkeys. by rewrite sort_by_Permutation.
Qed.

(** * Step 10: the runs of each match *)

(** X6. [total_runs_per_match] has one row for every match id of the delivery
    table and no other, in ascending order of the id, with the int64 sum of
    the total runs of the match's deliveries, which is the sum itself when
    it fits in 64 bits and -2^63 when the runs add up to 2^63; the rows'
    runs add up, in int64, to the runs of the whole table. *)
Theorem total_runs_per_match_conserves (deliveries_df : list delivery) (m : Z) :
  loc (total_runs_per_match deliveries_df) m
    = (if decide (m ∈ match_id <$> deliveries_df)
       then Some (wrap64 (runs_of_match deliveries_df m)) else None)
  ∧ (m ∈ match_id <$> deliveries_df →
     - 2 ^ 63 ≤ runs_of_match deliveries_df m < 2 ^ 63 →
     loc (total_runs_per_match deliveries_df) m = Some (runs_of_match deliveries_df m))
  ∧ (m ∈ match_id <$> deliveries_df →
     runs_of_match deliveries_df m = 2 ^ 63 →
     loc (total_runs_per_match deliveries_df) m = Some (- 2 ^ 63))
  ∧ StronglySorted Z.lt ((total_runs_per_match deliveries_df).*1)
  ∧ sum ((total_runs_per_match deliveries_df).*2) = sum (total_runs <$> deliveries_df).
Proof.
  rewrite total_runs_per_match_tabulate.
  assert (loc ((λ m, (m, wrap64 (runs_of_match deliveries_df m)))
                 <$> sort_by Z.ltb (unique (match_id <$> deliveries_df))) m
          = (if decide (m ∈ match_id <$> deliveries_df)
             then Some (wrap64 (runs_of_match deliveries_df m)) else None)) as Hloc.
  { rewrite loc_tabulate.
    destruct (decide (m ∈ sort_by Z.ltb (unique (match_id <$> deliveries_df))))
      as [Hin|Hnin]; rewrite elem_of_match_ids in *;
      [by rewrite decide_True|by rewrite decide_False]. }
  split_and!.
  - done.
  - intros Hm Hfit. by rewrite Hloc, decide_True, wrap64_small.
  - intros Hm Hbig. by rewrite Hloc, decide_True, Hbig.
  - rewrite fst_tabulate.
    pose proof (strictly_sorted id (sort_by Z.ltb (unique (match_id <$> deliveries_df)))
                  (sort_by_sorted Z.ltb id Z.ltb_lt _)) as Hs.
    rewrite list_fmap_id in Hs. apply Hs. apply match_ids_NoDup.
  - rewrite <- list_fmap_compose. unfold sum.
    rewrite (total_Permutation (total_runs <$> deliveries_df) _
               (fmap_Permutation total_runs _ _
                  (group_partition match_id _ deliveries_df
                     (match_ids_NoDup deliveries_df)
                     ltac:(intros r Hr; apply elem_of_match_ids;
                           by apply list_elem_of_fmap_2)))).
    rewrite fmap_of_bind, total_bind.
    rewrite <- (wrap64_total_wrap ((λ x, total (total_runs <$> _)) <$> _)).
    by rewrite <- list_fmap_compose.
Qed.

(** * Step 10: the merge and its edges *)

(** The rows the merge makes of one left row. *)
Lemma elem_of_merged_rows (right : list (value * value)) (l : Z * Z) (row : merged_row) :
  row ∈ match filter (λ r, r.1 = VInt l.1) right with
        | [] => [Merged l.1 l.2 VNull]
        | rs => (λ r, Merged l.1 l.2 r.2) <$> rs
        end →
  m_match_id row = l.1 ∧ m_total_runs row = l.2
  ∧ (m_season row = VNull ∨ (VInt l.1, m_season row) ∈ right).
Proof.
  destruct (filter (λ r, r.1 = VInt l.1) right) as [|r0 rs] eqn:Hf.
  - intros ->%list_elem_of_singleton. simpl. auto.
  - intros (r & -> & Hr)%list_elem_of_fmap. simpl. split_and!; [done..|]. right.
    rewrite <- Hf in Hr. apply list_elem_of_filter in Hr as [Hk Hr].
    rewrite <- Hk. by destruct r.
Qed.

Lemma match_runs_season_rows (matches_df : DataFrame) (deliveries_df : list delivery)
    (match_ids seasons : column) (merged : list merged_row) :
  matches_df !! "match_id" = Some match_ids →
  matches_df !! "season" = Some seasons →
  match_runs_season matches_df deliveries_df = Ok merged →
  merged = total_runs_per_match deliveries_df ≫= λ l,
             match filter (λ r, r.1 = VInt l.1) (zip match_ids seasons) with
             | [] => [Merged l.1 l.2 VNull]
             | rs => (λ r, Merged l.1 l.2 r.2) <$> rs
             end.
Proof.
  intros Hid Hseason Hmerge.
  unfold match_runs_season, getitems in Hmerge.
  rewrite Hid, Hseason in Hmerge. simpl in Hmerge. unfold merge_left in Hmerge.
  destruct (forallb _ (zip match_ids seasons)); [|done]. by injection Hmerge as <-.
Qed.

(** X7. When the merge of step 10 succeeds, the merged table has a row for
    every match id of the delivery table and for no other id; every row
    carries the int64 sum of the runs of its match (the sum itself when it
    fits in 64 bits, -2^63 when the runs add up to 2^63); and a row whose
    match id is not in the match table has a missing season, so it counts
    for no season. *)
Theorem merge_keeps_every_match (matches_df : DataFrame)
    (deliveries_df : list delivery) (match_ids seasons : column)
    (merged : list merged_row) :
  matches_df !! "match_id" = Some match_ids →
  matches_df !! "season" = Some seasons →
  match_runs_season matches_df deliveries_df = Ok merged →
  (∀ m, m ∈ m_match_id <$> merged ↔ m ∈ match_id <$> deliveries_df)
  ∧ Forall (λ row, m_total_runs row
                   = wrap64 (runs_of_match deliveries_df (m_match_id row))
                   ∧ (- 2 ^ 63 ≤ runs_of_match deliveries_df (m_match_id row) < 2 ^ 63 →
                      m_total_runs row = runs_of_match deliveries_df (m_match_id row))
                   ∧ (runs_of_match deliveries_df (m_match_id row) = 2 ^ 63 →
                      m_total_runs row = - 2 ^ 63))
           merged
  ∧ Forall (λ row, VInt (m_match_id row) ∉ match_ids →
                   m_season row = VNull ∧ season_key row = None) merged.
Proof.
  intros Hid Hseason Hmerge.
  rewrite (match_runs_season_rows _ _ _ _ _ Hid Hseason Hmerge).
  rewrite total_runs_per_match_tabulate. split_and!.
  - intros m. rewrite list_elem_of_fmap. split.
    + intros (row & -> & Hrow). apply list_elem_of_bind in Hrow as (l & Hrow & Hl).
      apply elem_of_merged_rows in Hrow as (-> & _ & _).
      apply list_elem_of_fmap in Hl as (m & -> & Hm). simpl.
      by apply elem_of_match_ids.
    + intros Hm. apply elem_of_match_ids in Hm.
      set (l := (m, wrap64 (runs_of_match deliveries_df m))).
      destruct (filter (λ r, r.1 = VInt l.1) (zip match_ids seasons)) as [|r0 rs] eqn:Hf.
      * exists (Merged m (wrap64 (runs_of_match deliveries_df m)) VNull). split; [done|].
        apply list_elem_of_bind. exists l. split.
        -- rewrite Hf. apply elem_of_cons. by left.
        -- by apply (list_elem_of_fmap_2
                       (λ m, (m, wrap64 (runs_of_match deliveries_df m)))).
      * exists (Merged m (wrap64 (runs_of_match deliveries_df m)) r0.2). split; [done|].
        apply list_elem_of_bind. exists l. split.
        -- rewrite Hf. apply elem_of_cons. by left.
        -- by apply (list_elem_of_fmap_2
                       (λ m, (m, wrap64 (runs_of_match deliveries_df m)))).
  - apply Forall_forall. intros row Hrow.
    apply list_elem_of_bind in Hrow as (l & Hrow & Hl).
    apply elem_of_merged_rows in Hrow as (-> & -> & _).
    apply list_elem_of_fmap in Hl as (m & -> & Hm). simpl.
    split_and!; [done| |].
    + intros Hfit. by rewrite wrap64_small.
    + intros Hbig. by rewrite Hbig.
  - apply Forall_forall. intros row Hrow Hout.
    apply list_elem_of_bind in Hrow as (l & Hrow & Hl).
    apply elem_of_merged_rows in Hrow as (Hm & _ & [Hnull|Hin]).
    + unfold season_key. by rewrite Hnull.
    + destruct Hout. rewrite Hm. apply elem_of_zip_l in Hin. done.
Qed.

Lemma merge_keeps_every_match_witness :
  Forall (λ row, m_total_runs row
                 = wrap64 (runs_of_match Instances.scenario_deliveries (m_match_id row))
                 ∧ (- 2 ^ 63 ≤ runs_of_match Instances.scenario_deliveries (m_match_id row)
                                < 2 ^ 63 →
                    m_total_runs row
                    = runs_of_match Instances.scenario_deliveries (m_match_id row))
                 ∧ (runs_of_match Instances.scenario_deliveries (m_match_id row) = 2 ^ 63 →
                    m_total_runs row = - 2 ^ 63))
         Instances.scenario_merged.
Proof.
  apply (merge_keeps_every_match Instances.scenario_preprocessed
           Instances.scenario_deliveries [VInt 1; VInt 2] [VInt 2020; VInt 2020]
           Instances.scenario_merged).
  - reflexivity.
  - reflexivity.
  - vm_compute. reflexivity.
Defined.

Section Step10Edges.
Context (sorted : column → result column).
Context (plot : chart → result unit).
Context (xticks : column → result unit).

(** X8. When the match table has a season column and no match_id column,
    step 10 does not skip itself: selecting the two columns raises the
    [KeyError] of a list of labels, which names the missing one, after the
    step's first line and nothing else. *)
Theorem step10_without_match_id (matches_df : DataFrame)
    (deliveries_df : list delivery) :
  is_Some (matches_df !! "season") →
  matches_df !! "match_id" = None →
  step10 sorted plot xticks matches_df deliveries_df
    = Run [Print "Plotting: Average Total Runs per Match Across Seasons..."]
          (Uncaught (KeyError "['match_id'] not in index")).
Proof.
  intros [seasons Hs] Hid. unfold step10, match_runs_season, getitems.
  rewrite bool_decide_true by (by rewrite Hs). by rewrite Hid, Hs.
Qed.

(** X9. When the merge succeeds and no match of the delivery table has a
    row with a season in the match table (the delivery table is empty, or
    the ids do not meet, or those seasons are all missing), step 10 writes
    that the season data is missing after the merge, shows no chart and
    ends normally. *)
Theorem step10_without_season_data (matches_df : DataFrame)
    (deliveries_df : list delivery) (match_ids seasons : column)
    (merged : list merged_row) :
  matches_df !! "match_id" = Some match_ids →
  matches_df !! "season" = Some seasons →
  match_runs_season matches_df deliveries_df = Ok merged →
  (∀ m s, m ∈ match_id <$> deliveries_df →
          (VInt m, s) ∈ zip match_ids seasons → s = VNull) →
  step10 sorted plot xticks matches_df deliveries_df
    = Run [Print "Plotting: Average Total Runs per Match Across Seasons...";
           Print "Could not perform average score per season analysis (missing 'season' column data after merge)."]
          (Finished tt).
Proof.
  intros Hid Hseason Hmerge Hnone.
  assert (forallb (λ r, isnull (m_season r)) merged = true) as Hall.
  { apply forallb_forall. intros row Hrow%list_elem_of_In.
    rewrite (match_runs_season_rows _ _ _ _ _ Hid Hseason Hmerge) in Hrow.
    apply list_elem_of_bind in Hrow as (l & Hrow & Hl).
    apply elem_of_merged_rows in Hrow as (_ & _ & [->|Hin]); [done|].
    rewrite (Hnone l.1 (m_season row)); [done| |done].
    rewrite total_runs_per_match_tabulate in Hl.
    apply list_elem_of_fmap in Hl as (m & -> & Hm). simpl.
    by apply elem_of_match_ids. }
  unfold step10. rewrite bool_decide_true by (by rewrite Hseason).
  rewrite Hmerge. cbn -[avg_score_per_season]. by rewrite Hall.
Qed.
End Step10Edges.

Lemma step10_without_match_id_witness :
  step10 Instances.sorted_values Instances.draw Instances.number_ticks
    {[ "season" := [VInt 2020] ]} Instances.scenario_deliveries
    = Run [Print "Plotting: Average Total Runs per Match Across Seasons..."]
          (Uncaught (KeyError "['match_id'] not in index")).
Proof.
  apply step10_without_match_id.
  - eexists. reflexivity.
  - reflexivity.
Defined.

Lemma step10_without_season_data_witness :
  outcome (step10 Instances.sorted_values
                  Instances.draw Instances.number_ticks Instances.scenario_preprocessed [])
    = Finished tt.
Proof.
  rewrite (step10_without_season_data Instances.sorted_values Instances.draw Instances.number_ticks
             Instances.scenario_preprocessed [] [VInt 1; VInt 2]
             [VInt 2020; VInt 2020] []).
  - reflexivity.
  - reflexivity.
  - reflexivity.
  - vm_compute. reflexivity.
  - intros m s Hm. by apply elem_of_nil in Hm.
Defined.

(** * Preprocessing: what it never does *)

Section PreprocessingEdges.
Context (to_datetime : column → result (list (option date))).

(** X10. Whatever the match table holds and whatever the date conversion does,
    preprocessing ends normally: no exception leaves it and it does not
    exit. It touches no column other than id, match_id, date and season, and
    a table that had an id or a match_id column has a match_id column
    afterwards. *)
Theorem preprocess_never_raises (matches_df : DataFrame) :
  ∃ matches_df',
    outcome (preprocess to_datetime matches_df) = Finished matches_df'
    ∧ (∀ name, name ∉ ["id"; "match_id"; "date"; "season"] →
               matches_df' !! name = matches_df !! name)
    ∧ (is_Some (matches_df !! "id") ∨ is_Some (matches_df !! "match_id") →
       is_Some (matches_df' !! "match_id")).
Proof.
  destruct (preprocess_other_columns to_datetime matches_df)
    as (matches_df' & Hrun & Hcols).
  exists matches_df'. split_and!; [done| |].
  - intros name Hname. rewrite !not_elem_of_cons in Hname.
    destruct Hname as (? & ? & ? & ? & _).
    rewrite Hcols by done. by apply renamed_lookup_other.
  - intros Hsome. rewrite Hcols by done. unfold renamed, rename.
    destruct (bool_decide (is_Some (matches_df !! "id"))
              && bool_decide (matches_df !! "match_id" = None)) eqn:Hcond.
    + apply andb_true_iff in Hcond as [[ids Hid]%bool_decide_eq_true _].
      rewrite Hid. by rewrite lookup_insert_eq.
    + apply andb_false_iff in Hcond as [Hid%bool_decide_eq_false|Hmid%bool_decide_eq_false].
      * by destruct Hsome.
      * by destruct (matches_df !! "match_id").
Qed.

(** X11. When the date column is there and its conversion raises, the
    exception is caught: preprocessing ends normally, the date column keeps
    its cells, the season column is as it was, and the last line written is
    a warning, with the exception's message unless the exception is a
    [KeyError], which gets the line meant for a missing column. *)
Theorem preprocess_conversion_fails (matches_df : DataFrame) (texts : column)
    (e : exn) :
  matches_df !! "date" = Some texts →
  to_datetime texts = Raised e →
  ∃ matches_df',
    outcome (preprocess to_datetime matches_df) = Finished matches_df'
    ∧ matches_df' !! "date" = Some texts
    ∧ matches_df' !! "season" = matches_df !! "season"
    ∧ last (output (preprocess to_datetime matches_df))
        = Some (Print match e with
                      | KeyError _ =>
                          "Warning: 'date' column not found in matches_df during conversion."
                      | _ =>
                          "Warning: Could not convert 'date' column or extract season: "
                          +:+ str_exn e
                      end).
Proof.
  intros Hd Hconv.
  assert (renamed matches_df !! "date" = Some texts) as Hrd
    by (by rewrite renamed_lookup_other).
  exists (renamed matches_df). split_and!.
  - rewrite preprocess_outcome. unfold getitem. rewrite Hrd. simpl. by rewrite Hconv.
  - done.
  - by apply renamed_lookup_other.
  - unfold preprocess, convert_date, getitem. fold (renamed matches_df).
    unfold renamed in *.
    destruct (_ && _); cbn -[rename]; rewrite Hrd; cbn -[rename];
      rewrite Hconv; by destruct e.
Qed.
End PreprocessingEdges.

Lemma preprocess_conversion_fails_witness :
  ∃ matches_df',
    outcome (preprocess Instances.iso_to_datetime
               {[ "date" := [VStr "2020-04-10"; VStr "soon"]; "season" := [VInt 1; VInt 2] ]})
      = Finished matches_df'
    ∧ matches_df' !! "season" = Some [VInt 1; VInt 2].
Proof.
  destruct (preprocess_conversion_fails Instances.iso_to_datetime
              {[ "date" := [VStr "2020-04-10"; VStr "soon"]; "season" := [VInt 1; VInt 2] ]}
              [VStr "2020-04-10"; VStr "soon"]
              (OtherError "ValueError" "Unknown datetime string format: soon"))
    as (matches_df' & Hrun & _ & Hseason & _).
  - reflexivity.
  - reflexivity.
  - exists matches_df'. split; [exact Hrun|]. rewrite Hseason. reflexivity.
Defined.

(** * Loading: the successful run and the order of the reads *)

(** X12. When both files are read, the loader writes its loading lines and
    that the datasets are loaded, and hands over the two tables as read. *)
Theorem load_succeeds (w : world) (deliveries_df : list delivery)
    (matches_df : DataFrame) :
  deliveries_files w (deliveries_path (the_script_dir w)) = Table deliveries_df →
  matches_files w (matches_path (the_script_dir w)) = Table matches_df →
  load w = Run (loading_lines w ++ [Print (nl +:+ "Datasets loaded successfully.")])
               (Finished (deliveries_df, matches_df)).
Proof.
  unfold load, script_dir, loading_lines, the_script_dir, read_csv, try_except.
  intros Hd Hm; destruct (dirname_of_file w); cbn in *;
    rewrite Hd; cbn; rewrite Hm; reflexivity.
Qed.

Lemma load_succeeds_witness :
  outcome (load Instances.unseasoned_world)
    = Finished (Instances.scenario_deliveries, Instances.unseasoned_matches).
Proof.
  rewrite (load_succeeds Instances.unseasoned_world Instances.scenario_deliveries
             Instances.unseasoned_matches); reflexivity.
Defined.

(** X13. The deliveries file is read first: when that read fails, the matches
    file is not looked at, so the loader does the same whatever is at the
    matches path. *)
Theorem load_reads_deliveries_first (w : world)
    (other_matches : string → file DataFrame) :
  (∀ t, deliveries_files w (deliveries_path (the_script_dir w)) ≠ Table t) →
  load (World (dirname_of_file w) (getcwd w) (deliveries_files w) other_matches)
    = load w.
Proof.
  intros Hfail.
  unfold load, script_dir, the_script_dir, read_csv, try_except in *. simpl in *.
  destruct (dirname_of_file w); cbn in *;
    destruct (deliveries_files w _) as [|c m|t]; cbn; try done; by destruct (Hfail t).
Qed.

Lemma load_reads_deliveries_first_witness :
  load (World (Some "/srv/ipl") "/home/user"
          (deliveries_files Instances.garbled_world)
          (λ _, Table Instances.unseasoned_matches))
    = load Instances.garbled_world.
Proof.
  apply (load_reads_deliveries_first Instances.garbled_world). discriminate.
Defined.

(** X14. When [__file__] is not defined the files are looked for in the current
    working directory: apart from two warning lines after the banner, the
    loader does what it does for a script that lies in that directory. *)
Theorem load_falls_back_to_cwd (w : world) :
  dirname_of_file w = None →
  let w' := World (Some (getcwd w)) (getcwd w) (deliveries_files w) (matches_files w) in
  outcome (load w) = outcome (load w')
  ∧ output (load w)
    = (take 3 (output (load w'))
       ++ [Print (nl +:+ "Warning: __file__ not defined. Using current working directory as script directory.");
           Print ("Make sure your CSV files are in: " +:+ getcwd w)]
       ++ drop 3 (output (load w')))%list.
Proof.
  intros Hnone w'. subst w'.
  unfold load, script_dir, read_csv, try_except. rewrite Hnone. cbn.
  destruct (deliveries_files w _) as [|c m|t]; cbn; [done..|].
  destruct (matches_files w _) as [|c' m'|t']; cbn; done.
Qed.

Lemma load_falls_back_to_cwd_witness :
  outcome (load (World None "/home/user" (λ _, Absent) (λ _, Absent)))
    = SystemExit None.
Proof.
  rewrite (proj1 (load_falls_back_to_cwd
                    (World None "/home/user" (λ _, Absent) (λ _, Absent)) eq_refl)).
  reflexivity.
Defined.

(** * Step 4: the toss against the outcome *)

(** X15. A row counts as won by the toss winner exactly when the toss winner
    and the winner are the same non-missing value: a match without a winner
    (or without a toss winner) always counts as lost by the toss winner. *)
Theorem toss_wins_needs_a_winner (toss_winner winner : column) (i : nat) :
  (eq_columns toss_winner winner !! i = Some true
   ↔ ∃ v, v ≠ VNull ∧ toss_winner !! i = Some v ∧ winner !! i = Some v)
  ∧ length (eq_columns toss_winner winner)
    = (length toss_winner `min` length winner)%nat.
Proof.
  split.
  - unfold eq_columns. rewrite lookup_zip_with.
    destruct (toss_winner !! i) as [a|]; simpl;
      [|split; [done|by intros (? & ? & ? & ?)]].
    destruct (winner !! i) as [b|]; simpl;
      [|split; [done|by intros (? & ? & ? & ?)]].
    split.
    + intros [= Heq]. apply andb_true_iff in Heq as [Hnn Heq].
      apply andb_true_iff in Hnn as [Ha Hb]. apply bool_decide_eq_true in Heq as ->.
      exists b. split_and!; [|done..]. by destruct b.
    + intros (v & Hv & [= ->] & [= ->]). f_equal.
      rewrite bool_decide_true by done. by destruct v.
  - unfold eq_columns. apply length_zip_with.
Qed.

(** * Step 6: every match is accounted for *)

Lemma length_null_notnull (c : column) :
  (length (filter (λ v, notnull v) c) + length (filter (λ v, isnull v) c))%nat
  = length c.
Proof.
  induction c as [|v c IH]; [done|].
  destruct v; simpl;
    repeat (first [rewrite filter_cons_True by done
                  |rewrite filter_cons_False by (by intros ?)]); simpl; lia.
Qed.

Lemma existsb_isnull_count (c : column) :
  existsb isnull c = false ↔ length (filter (λ v, isnull v) c) = 0%nat.
Proof.
  rewrite length_zero_iff_nil. induction c as [|v c IH]; simpl; [done|].
  destruct v; simpl.
  - rewrite filter_cons_True by done. split; done.
  - rewrite filter_cons_False by (by intros ?). done.
  - rewrite filter_cons_False by (by intros ?). done.
  - rewrite filter_cons_False by (by intros ?). done.
Qed.

(** X16. The awards counted by [pom_counts] and the missing values add up to
    the number of matches; and step 6 writes its note, with the number of
    missing values, exactly when there is one, before it hands the chart to
    the pie plot, and shows the chart exactly when the plot is drawn. *)
Theorem pom_counts_accounts_for_all (plot : chart → result unit)
    (matches_df : DataFrame) (player_of_match : column) :
  let missing := length (filter (λ v, isnull v) player_of_match) in
  (sum_list ((pom_counts player_of_match).*2) + missing)%nat = length player_of_match
  ∧ output (step6 plot (<["player_of_match" := player_of_match]> matches_df))
    = ([Print "Plotting: Top 15 Player of the Match Winners..."]
       ++ (if decide (missing = 0%nat) then []
           else [Print ("Note: Found " +:+ pretty missing
                        +:+ " missing value(s) in 'player_of_match'. Excluding them from PoM analysis.")])
       ++ match plot (PlayerOfMatch (head 15 (pom_counts player_of_match))) with
          | Ok _ => [Show (PlayerOfMatch (head 15 (pom_counts player_of_match)))]
          | Raised _ => []
          end)%list
  ∧ outcome (step6 plot (<["player_of_match" := player_of_match]> matches_df))
    = match plot (PlayerOfMatch (head 15 (pom_counts player_of_match))) with
      | Ok _ => Finished tt
      | Raised e => Uncaught e
      end.
Proof.
  intros missing. split_and!.
  - assert (pom_counts player_of_match = value_counts player_of_match) as ->.
    { unfold pom_counts. destruct (existsb isnull player_of_match); [|done].
      unfold value_counts. by rewrite filter_notnull_idemp. }
    unfold value_counts. rewrite counts_desc_total. apply length_null_notnull.
  - unfold step6, display, getitem. rewrite lookup_insert_eq.
    cbn -[pretty head pom_counts]. fold missing.
    pose proof (existsb_isnull_count player_of_match) as Hex. fold missing in Hex.
    destruct (plot (PlayerOfMatch (head 15 (pom_counts player_of_match)))) as [[]|e];
      destruct (existsb isnull player_of_match);
      first [rewrite decide_False; [done|]; intros Hz; apply Hex in Hz; done
            |rewrite decide_True; [done|]; by apply Hex].
  - unfold step6, display, getitem. rewrite lookup_insert_eq.
    cbn -[pretty head pom_counts].
    destruct (plot (PlayerOfMatch (head 15 (pom_counts player_of_match)))) as [[]|e];
      by destruct (existsb isnull player_of_match).
Qed.

(** * The analysis phase and missing columns *)

Lemma analysis_without_season_witness :
  outcome (analysis Instances.sorted_values
                    Instances.draw Instances.number_ticks Instances.unseasoned_matches
             Instances.scenario_deliveries)
    = Uncaught (KeyError "season").
Proof.
  rewrite (analysis_without_season Instances.sorted_values Instances.draw Instances.number_ticks
             Instances.unseasoned_matches Instances.scenario_deliveries).
  - reflexivity.
  - reflexivity.
Defined.

Lemma step10_without_season_witness :
  outcome (step10 Instances.sorted_values
                  Instances.draw Instances.number_ticks Instances.unseasoned_matches
             Instances.scenario_deliveries)
    = Finished tt.
Proof.
  rewrite (step10_without_season Instances.sorted_values Instances.draw Instances.number_ticks
             Instances.unseasoned_matches Instances.scenario_deliveries).
  - reflexivity.
  - reflexivity.
Defined.

(** * The whole run after loading *)

Lemma bind_finished {A B} (m : M A) (f : A → M B) (a : A) :
  outcome m = Finished a →
  m ≫= f = Run (output m ++ output (f a)) (outcome (f a)).
Proof. intros Hm. unfold mbind, M_bind. by rewrite Hm. Qed.

Lemma bind_uncaught {A B} (m : M A) (f : A → M B) (e : exn) :
  outcome m = Uncaught e → m ≫= f = Run (output m) (Uncaught e).
Proof. intros Hm. unfold mbind, M_bind. by rewrite Hm. Qed.

Lemma bind_exit {A B} (m : M A) (f : A → M B) (c : option Z) :
  outcome m = SystemExit c → m ≫= f = Run (output m) (SystemExit c).
Proof. intros Hm. unfold mbind, M_bind. by rewrite Hm. Qed.

Lemma load_hands_over (w : world) (deliveries_df : list delivery)
    (matches_df : DataFrame) :
  deliveries_files w (deliveries_path (the_script_dir w)) = Table deliveries_df →
  matches_files w (matches_path (the_script_dir w)) = Table matches_df →
  outcome (load w) = Finished (deliveries_df, matches_df).
Proof.
  unfold load, script_dir, the_script_dir, read_csv, try_except.
  intros Hd Hm; destruct (dirname_of_file w); cbn in *;
    rewrite Hd; cbn; rewrite Hm; reflexivity.
Qed.

(** The inspection goes through on a match table with a text column, and
    stops at the description of the text columns on a table that has a
    column and no text column. *)
Lemma has_object_column_nonempty (matches_df : DataFrame) :
  has_object_column matches_df = true → matches_df ≠ ∅.
Proof.
  intros Hobj ->. unfold has_object_column in Hobj.
  by rewrite map_to_list_empty in Hobj.
Qed.

Lemma report_finishes (matches_df : DataFrame) :
  has_object_column matches_df = true → outcome (report matches_df) = Finished tt.
Proof.
  intros Hobj. pose proof (has_object_column_nonempty _ Hobj) as Hne.
  unfold report. rewrite bool_decide_false by done. rewrite Hobj. reflexivity.
Qed.

Section WholeRun.
Context (to_datetime : column → result (list (option date))).
Context (sorted : column → result column).
Context (plot : chart → result unit).
Context (xticks : column → result unit).

(** X20. Once both files are read and the match table has a text column, so
    that the inspection goes through, the run stands or falls with the
    analysis phase. When the analysis ends normally the run ends normally,
    with the closing rule of the summary as its last line. When a step of
    the analysis raises, nobody catches the exception: the run ends with it
    and status 1, and what it wrote stops with the analysis, with no
    summary. *)
Theorem main_after_loading (w : world) (deliveries_df : list delivery)
    (matches_df matches_df' : DataFrame) :
  deliveries_files w (deliveries_path (the_script_dir w)) = Table deliveries_df →
  matches_files w (matches_path (the_script_dir w)) = Table matches_df →
  has_object_column matches_df = true →
  outcome (preprocess to_datetime matches_df) = Finished matches_df' →
  match outcome (analysis sorted plot xticks matches_df' deliveries_df) with
  | Finished _ =>
      outcome (main to_datetime sorted plot xticks w) = Finished tt
      ∧ last (output (main to_datetime sorted plot xticks w)) = Some (Print rule38)
  | Uncaught e =>
      outcome (main to_datetime sorted plot xticks w) = Uncaught e
      ∧ exit_status (outcome (main to_datetime sorted plot xticks w)) = 1
      ∧ output (main to_datetime sorted plot xticks w)
        = (output (load w) ++ output (report matches_df)
           ++ output (preprocess to_datetime matches_df)
           ++ output (analysis sorted plot xticks matches_df' deliveries_df))%list
  | SystemExit c => outcome (main to_datetime sorted plot xticks w) = SystemExit c
  end.
Proof.
  intros Hd Hm Hobj Hpre.
  pose proof (load_hands_over w deliveries_df matches_df Hd Hm) as Hlo.
  pose proof (report_finishes matches_df Hobj) as Hrep.
  unfold main. rewrite (bind_finished _ _ _ Hlo).
  unfold after_load. simpl fst. simpl snd.
  rewrite (bind_finished (report matches_df) _ tt Hrep).
  rewrite (bind_finished _ _ _ Hpre).
  destruct (outcome (analysis sorted plot xticks matches_df' deliveries_df))
    as [[]|e|c] eqn:Han.
  - rewrite (bind_finished _ _ _ Han). cbn [output outcome]. split.
    + reflexivity.
    + rewrite !app_assoc. rewrite last_app. reflexivity.
  - rewrite (bind_uncaught _ _ _ Han). cbn [output outcome]. split_and!; reflexivity.
  - by rewrite (bind_exit _ _ _ Han).
Qed.
End WholeRun.

Lemma main_after_loading_witness :
  exit_status (outcome (main Instances.iso_to_datetime Instances.sorted_values
                          Instances.draw Instances.number_ticks
                          Instances.unseasoned_world)) = 1.
Proof.
  pose proof (main_after_loading Instances.iso_to_datetime Instances.sorted_values
                Instances.draw Instances.number_ticks
                Instances.unseasoned_world Instances.scenario_deliveries
                Instances.unseasoned_matches Instances.unseasoned_matches
                eq_refl eq_refl) as Hrun.
  assert (outcome (analysis Instances.sorted_values Instances.draw Instances.number_ticks
                     Instances.unseasoned_matches Instances.scenario_deliveries)
          = Uncaught (KeyError "season")) as Han by (vm_compute; reflexivity).
  rewrite Han in Hrun. apply Hrun; vm_compute; reflexivity.
Defined.
